(** * NginxSourceViewer: the configuration generator [generate_config.py]

    A shallow embedding of [run] and of the Python built-ins it calls,
    followed by the properties of the generated configuration snippet.

    Python [str] values are modelled by [string]; a character is an [ascii],
    so the model covers code points below 256.  Python [int] is [Z].  A [set]
    of strings is a [gset string]; the [dict] of languages is an association
    list in insertion order.  Exceptions are values of [result].

    Three things come from outside the module and are parameters of [run]:
    the answers of the cdnjs catalog, the minifier [htmlmin.minify], and the
    order in which the interpreter iterates over a set of strings.  The
    [logging] calls do not touch the value [run] returns and are left out. *)

From Stdlib Require Import ZArith Lia Ascii.
From Stdlib Require String.
From stdpp Require Import base option list sorting gmap strings.

Local Open Scope Z_scope.
#[local] Set Warnings "-clear-no-such-hyp".

(** ** Exceptions *)

Inductive exn : Type :=
  | ValueError (msg : string)
  | KeyError (key : string)
  | IndexError (msg : string).

Inductive result (A : Type) : Type :=
  | Ok (a : A)
  | Raise (e : exn).
Arguments Ok {A} a.
Arguments Raise {A} e.

(** Exceptions propagate: [x ← r; k] runs [k] only when [r] returned. *)
#[global] Instance result_bind : MBind result := λ A B k r,
  match r with
  | Ok a => k a
  | Raise e => Raise e
  end.

(** ** The Python built-ins used by the generator *)

Module Py.

(** The double quote and the line feed, which a literal cannot hold as
    they are. *)
Definition DQ : ascii := "034"%char.
Definition LF : string := String "010"%char "".

(** The long literals of the source hold many double quotes; they are
    written below with a backquote in each such place (the source has no
    backquote) and [lit] puts the double quotes back. *)
Fixpoint lit (s : string) : string :=
  match s with
  | EmptyString => EmptyString
  | String c s' => String (if Ascii.eqb c "`" then DQ else c) (lit s')
  end.

(** [len(s)] *)
Definition len (s : string) : Z := Z.of_nat (String.length s).

(** [s.startswith(p)] *)
Definition startswith (p s : string) : bool := String.prefix p s.

(** [sub in s] *)
Fixpoint contains (sub s : string) : bool :=
  String.prefix sub s ||
  match s with
  | EmptyString => false
  | String _ s' => contains sub s'
  end.

(** [s[start:stop]]: a negative index counts from the end, and both ends
    are clipped to the string. *)
Definition clip (n i : Z) : Z :=
  if i <? 0 then Z.max 0 (n + i) else Z.min i n.

Definition slice (start stop : Z) (s : string) : string :=
  let a := clip (len s) start in
  let b := clip (len s) stop in
  String.substring (Z.to_nat a) (Z.to_nat (b - a)) s.

(** [sep.join(l)] *)
Fixpoint join (sep : string) (l : list string) : string :=
  match l with
  | [] => ""
  | x :: l' =>
      match l' with
      | [] => x
      | _ :: _ => x +:+ sep +:+ join sep l'
      end
  end.

(** [filter(None, l)] over strings: the empty string is the only false
    one. *)
Definition truthy (s : string) : bool :=
  match s with
  | EmptyString => false
  | String _ _ => true
  end.

Definition filter_None (l : list string) : list string :=
  List.filter truthy l.

(** [sorted(l)]: strings compare by code point, lexicographically. *)
Definition sorted (l : list string) : list string := merge_sort String.le l.

(** [l.remove(x)]: drops the first occurrence, and raises when there is
    none. *)
Fixpoint list_remove (x : string) (l : list string) : result (list string) :=
  match l with
  | [] => Raise (ValueError "list.remove(x): x not in list")
  | y :: l' =>
      if String.eqb y x then Ok l'
      else (r ← list_remove x l'; Ok (y :: r))
  end.

(** [l.insert(0, x)] *)
Definition list_insert0 (x : string) (l : list string) : list string := x :: l.

End Py.

(** ** [json.dumps] of a list of strings, with [separators=(',', ':')] *)

Module Json.

Definition hex_digit (n : N) : ascii :=
  ascii_of_N (if (n <? 10)%N then 48 + n else 87 + n).

(** The escape [\u00xx] of a code point below 256. *)
Definition u_escape (c : ascii) : string :=
  let n := N_of_ascii c in
  "\u00" +:+ String (hex_digit (n / 16)) (String (hex_digit (n mod 16)) "").

(** [ensure_ascii] is on: everything outside space..tilde is escaped, and
    so are the backslash and the double quote. *)
Definition escape_char (c : ascii) : string :=
  let n := N_of_ascii c in
  if (n =? 34)%N then String "\" (String Py.DQ "")
  else if (n =? 92)%N then "\\"
  else if (n =? 10)%N then "\n"
  else if (n =? 13)%N then "\r"
  else if (n =? 9)%N then "\t"
  else if (n =? 12)%N then "\f"
  else if (n =? 8)%N then "\b"
  else if ((n <? 32) || (126 <? n))%N then u_escape c
  else String c "".

Fixpoint escape (s : string) : string :=
  match s with
  | EmptyString => EmptyString
  | String c s' => escape_char c +:+ escape s'
  end.

Definition dumps_str (s : string) : string :=
  String Py.DQ (escape s +:+ String Py.DQ "").

Definition dumps (l : list string) : string :=
  "[" +:+ Py.join "," (dumps_str <$> l) +:+ "]".

End Json.

(** ** [string.Template(t).substitute] with keyword arguments *)

Module Template.

Definition is_idstart (c : ascii) : bool :=
  let n := N_of_ascii c in
  ((n =? 95) || ((65 <=? n) && (n <=? 90)) || ((97 <=? n) && (n <=? 122)))%N.

Definition is_idchar (c : ascii) : bool :=
  let n := N_of_ascii c in
  is_idstart c || ((48 <=? n) && (n <=? 57))%N.

(** Where the scanner stands: in plain text, just after a [$], inside
    [$name], just after [${], or inside [${name]. *)
Inductive mode : Type :=
  | Text
  | Delim
  | Named (acc : string)
  | Brace
  | Braced (acc : string).

Definition invalid {A : Type} : result A :=
  Raise (ValueError "Invalid placeholder in string").

Definition lookup_kw (kw : gmap string string) (name : string) : result string :=
  match kw !! name with
  | Some v => Ok v
  | None => Raise (KeyError name)
  end.

Definition snoc (acc : string) (c : ascii) : string := acc +:+ String c "".

Fixpoint scan (kw : gmap string string) (m : mode) (s : string) : result string :=
  match s with
  | EmptyString =>
      match m with
      | Text => Ok ""
      | Named acc => lookup_kw kw acc
      | Delim | Brace | Braced _ => invalid
      end
  | String c s' =>
      match m with
      | Text =>
          if Ascii.eqb c "$" then scan kw Delim s'
          else (r ← scan kw Text s'; Ok (String c r))
      | Delim =>
          if Ascii.eqb c "$" then (r ← scan kw Text s'; Ok (String "$" r))
          else if Ascii.eqb c "{" then scan kw Brace s'
          else if is_idstart c then scan kw (Named (String c "")) s'
          else invalid
      | Named acc =>
          if is_idchar c then scan kw (Named (snoc acc c)) s'
          else
            v ← lookup_kw kw acc;
            if Ascii.eqb c "$" then (r ← scan kw Delim s'; Ok (v +:+ r))
            else (r ← scan kw Text s'; Ok (v +:+ String c r))
      | Brace =>
          if is_idstart c then scan kw (Braced (String c "")) s'
          else invalid
      | Braced acc =>
          if is_idchar c then scan kw (Braced (snoc acc c)) s'
          else if Ascii.eqb c "}" then
            v ← lookup_kw kw acc;
            r ← scan kw Text s'; Ok (v +:+ r)
          else invalid
      end
  end.

Definition substitute (template : string) (kw : gmap string string) : result string :=
  scan kw Text template.

End Template.

(** ** The constants of the module *)

Definition MINIFIED_CSS : string := Py.lit
"body,html,pre{min-height:100%}.hljs{font-family:`Fira Code`,monospace!important}.wrap{white-space:pre-wrap;word-wrap:break-word}td.hljs-ln-code{padding-left:10px!important}td.hljs-ln-numbers{user-select:none;text-align:right;color:#ccc;border-right:1px solid #ccc;vertical-align:top;padding-right:5px!important} ".

Definition MINIFIED_JS : string := Py.lit
"const j=jQuery,ls=localStorage,RAW_URL=`$uri?raw=1`;var gStyle=STYLES[0];function set_style(e){j(`#css`).attr(`href`,j(`#js`).attr(`src`).replace(/lang.+/,`styles/`+e+`.min.css`)),j(`#style`).text(e.replace(/[-_]/g,` `)),gStyle=e,ls.setItem(`style`,e)}function move_style(e){let t=STYLES.indexOf(gStyle)+e;t<0&&(t+=STYLES.length),set_style(STYLES[t%STYLES.length])}function toggle_wrap(){let e=j(`#code`),t=0!=arguments.length?arguments[0]:!e.hasClass(`wrap`);t?e.addClass(`wrap`):e.removeClass(`wrap`),ls.setItem(`wrap`,t)}hljs.configure({tabReplace:` `}),j(function(){null!==ls.getItem(`style`)?set_style(ls.getItem(`style`)):set_style(gStyle),null!==ls.getItem(`wrap`)&&toggle_wrap(ls.getItem(`wrap`)),j.get({url:RAW_URL,dataType:`text`}).done(function(e){let t=j(`#code`).text(e)[0];hljs.highlightBlock(t),hljs.lineNumbersBlock(t)}),j(`#nxtstyle`).click(function(){move_style(1)}),j(`#prvstyle`).click(function(){move_style(-1)}),j(`#wrap`).click(function(){toggle_wrap()})});".

Definition MAGIC_HTML : string := Py.lit
"<!DOCTYPE html>
<html lang=`en`>
<head>
    <meta charset=`UTF-8`>
    <meta name=`generator` content=`NginxSourceViewer by Dries007: https://github.com/dries007/NginxSourceViewer`>
    <link id=`css` rel=`stylesheet`>
    <style>${css}</style>
    <title>$$uri</title>
</head>
<body class=`hljs`>
    ${scripts}
    <script id=`js` src=`https://cdnjs.cloudflare.com/ajax/libs/highlight.js/${highlight_version}/languages/$$lang.min.js`></script>
    <script>const STYLES=${styles};${js}</script>
    <div>
        <a href=`./` class=`hljs-subst`>Show directory.</a>&nbsp;&nbsp;|&nbsp;&nbsp;
        <a href=`$$uri?raw=1` class=`hljs-subst`>Get the raw file here.</a>&nbsp;&nbsp;|&nbsp;&nbsp;
        <a href=`#` id=`prvstyle` class=`hljs-subst`>&larr;</a>&nbsp;Style&nbsp;
        `<span id=`style` style=`text-transform: capitalize; display: inline-block; min-width: 20ch;`></span>`
        &nbsp;<a href=`#` id=`nxtstyle` class=`hljs-subst`>&rarr;</a>&nbsp;&nbsp;|&nbsp;&nbsp;
        <a href=`#` id=`wrap` class=`hljs-subst`>Toggle wrapping.</a>
    </div>
    <pre><code id=`code` class=`$$lang`></code></pre> </body>
</html>".

(** ** The generator *)

(** One entry of the [assets] array the catalog answers with. *)
Record asset : Type := Asset {
  asset_version : string;
  asset_files : list string
}.

(** [create_script_tag(lib, version, file)] *)
Definition create_script_tag (lib version file : string) : string :=
  let url := "https://cdnjs.cloudflare.com/ajax/libs/" +:+ lib +:+ "/" +:+ version +:+ "/" +:+ file in
  Py.lit "<script src=`" +:+ url +:+ Py.lit "`></script>".

(** Line 76: [{x[10:-7] for x in highlight_files if x.startswith('languages/')}] *)
Definition possible_languages (highlight_files : list string) : gset string :=
  list_to_set (Py.slice 10 (-7) <$> List.filter (Py.startswith "languages/") highlight_files).

(** Line 78: [{x[7:-8] for x in highlight_files if x.startswith('styles/')}] *)
Definition possible_styles (highlight_files : list string) : gset string :=
  list_to_set (Py.slice 7 (-8) <$> List.filter (Py.startswith "styles/") highlight_files).

(** Line 88: [set(languages.keys()) - possible_languages] *)
Definition missing_languages (languages : list (string * string))
    (possible_languages : gset string) : gset string :=
  list_to_set languages.*1 ∖ possible_languages.

(** Line 89: [set(styles) - possible_styles] *)
Definition missing_styles (styles : list string) (possible_styles : gset string) : gset string :=
  list_to_set styles ∖ possible_styles.

(** Lines 96-100 and 108 *)
Definition scripts (jquery_version highlight_version line_numbers_version : string)
    : list (string * string * string) :=
  [ ("jquery", jquery_version, "jquery.min.js");
    ("highlight.js", highlight_version, "highlight.min.js");
    ("highlightjs-line-numbers.js", line_numbers_version, "highlightjs-line-numbers.min.js") ].

(** Lines 103-110: the keyword arguments of [template.substitute]. *)
Definition html_kw (styles : list string)
    (jquery_version highlight_version line_numbers_version : string) : gmap string string :=
  {[ "css" := MINIFIED_CSS;
     "js" := MINIFIED_JS;
     "styles" := Json.dumps styles;
     "scripts" := Py.join (Py.LF +:+ "    ")
        ((λ '(lib, v, file), create_script_tag lib v file) <$>
           scripts jquery_version highlight_version line_numbers_version);
     "highlight_version" := highlight_version ]}.

(** Lines 103-110: [string.Template(MAGIC_HTML).substitute(...)] *)
Definition assemble (styles : list string)
    (jquery_version highlight_version line_numbers_version : string) : result string :=
  Template.substitute MAGIC_HTML
    (html_kw styles jquery_version highlight_version line_numbers_version).

(** ['%s: %s' % (k, v)] *)
Definition requested (kv : string * string) : string := kv.1 +:+ ": " +:+ kv.2.

(** Lines 125-126: one [location] line per language that is not missing,
    in the order of [languages.items()]. *)
Definition location (kv : string * string) : string :=
  "location ~* " +:+ kv.2 +:+ " { if ($arg_raw) {break;} set $lang " +:+ kv.1
    +:+ "; try_files @highlight @highlight; }".

Definition location_gen (languages : list (string * string))
    (missing_languages : gset string) : list string :=
  location <$> List.filter (λ kv, bool_decide (kv.1 ∉ missing_languages)) languages.

Definition UnsafeLiteralError : exn :=
  ValueError "Single quotes in the HTML. This is a problem!".

Definition ConfigTooLargeError : exn :=
  ValueError "Minified HTML longer than 4096-20 characters. Nginx will not load it.".

Section Generator.

(** The [assets] array of the answer to
    [https://api.cdnjs.com/libraries/<library>?fields=assets]. *)
Variable cdnjs : string → list asset.

(** [htmlmin.minify] with the options of line 119. *)
Variable minify : string → string.

(** The order in which the interpreter iterates over a set of strings. *)
Variable iter : gset string → list string.

(** [get_cdn_files(library)]: version and files of [data['assets'][0]].
    The answer is taken to be JSON of the shape the function reads, an
    [assets] array of objects with a [version] and [files]; a request that
    fails and an answer of another shape are outside the model. *)
Definition get_cdn_files (library : string) : result (string * list string) :=
  match cdnjs library with
  | a :: _ => Ok (asset_version a, asset_files a)
  | [] => Raise (IndexError "list index out of range")
  end.

(** Lines 83-86: the style list the rest of [run] works with. *)
Definition effective_styles (styles : option (list string))
    (possible_styles : gset string) : result (list string) :=
  match styles with
  | None =>
      styles ← Py.list_remove "default" (Py.sorted (iter possible_styles));
      Ok (Py.list_insert0 "default" styles)
  | Some styles => Ok styles
  end.

(** Lines 130-135: the comment lines of the snippet. *)
Definition comment_lines (languages : list (string * string)) (styles : list string)
    (missing_languages missing_styles : gset string) : list string :=
  [ "# NginxSourceViewer";
    "# -----------------";
    "# Requested languages: " +:+ Py.join ", " (requested <$> languages);
    "# Requested styles: " +:+ Py.join ", " styles;
    "# Missing languages: " +:+
      (if bool_decide (missing_languages ≠ ∅)
       then Py.join ", " (requested <$>
              List.filter (λ kv, bool_decide (kv.1 ∈ missing_languages)) languages)
       else "None");
    "# Missing styles: " +:+
      (if bool_decide (missing_styles ≠ ∅)
       then Py.join ", " (iter missing_styles)
       else "None") ].

(** Lines 137-147: the shared handler, which returns the document. *)
Definition handler_lines (html : string) : list string :=
  [ "location @highlight {";
    "    if (!-f $request_filename) {";
    "        return 404;";
    "    }";
    "    charset UTF-8;";
    "    override_charset on;";
    "    source_charset UTF-8;";
    "    default_type text/html;";
    "    add_header Content-Type text/html;";
    "    return 200 '" +:+ html +:+ "';";
    "}" ].

(** Lines 129-148: the lines of the snippet, before [filter] and [join]. *)
Definition snippet_lines (languages : list (string * string)) (styles : list string)
    (missing_languages missing_styles : gset string) (html : string) : list string :=
  comment_lines languages styles missing_languages missing_styles
  ++ location_gen languages missing_languages
  ++ handler_lines html.

(** [run(languages, styles=None)] *)
Definition run (languages : list (string * string)) (styles : option (list string))
    : result string :=
  '(jquery_version, jquery_files) ← get_cdn_files "jquery";
  '(highlight_version, highlight_files) ← get_cdn_files "highlight.js";
  '(line_numbers_version, line_numbers_files) ← get_cdn_files "highlightjs-line-numbers.js";
  let possible_languages := possible_languages highlight_files in
  let possible_styles := possible_styles highlight_files in
  styles ← effective_styles styles possible_styles;
  let missing_languages := missing_languages languages possible_languages in
  let missing_styles := missing_styles styles possible_styles in
  html ← assemble styles jquery_version highlight_version line_numbers_version;
  if Py.contains "'" html then Raise UnsafeLiteralError
  else
    let old_size := Py.len html in
    let html := minify html in
    let new_size := Py.len html in
    if new_size >? 4096 - 20 then Raise ConfigTooLargeError
    else
      Ok (Py.join Py.LF (Py.filter_None
            (snippet_lines languages styles missing_languages missing_styles html))).

End Generator.

(** * Vocabulary of the properties *)

(** The three script tags of line 108, joined. *)
Definition scripts_html (jquery_version highlight_version line_numbers_version : string) : string :=
  Py.join (Py.LF +:+ "    ")
    ((λ '(lib, v, file), create_script_tag lib v file) <$>
       scripts jquery_version highlight_version line_numbers_version).

(** The text of [MAGIC_HTML] between its placeholders, with [$$] already
    turned into [$]. *)
Definition html_head : string := Py.lit
"<!DOCTYPE html>
<html lang=`en`>
<head>
    <meta charset=`UTF-8`>
    <meta name=`generator` content=`NginxSourceViewer by Dries007: https://github.com/dries007/NginxSourceViewer`>
    <link id=`css` rel=`stylesheet`>
    <style>".

Definition html_body : string := Py.lit
"</style>
    <title>$uri</title>
</head>
<body class=`hljs`>
    ".

Definition html_js_src : string := Py.lit
"
    <script id=`js` src=`https://cdnjs.cloudflare.com/ajax/libs/highlight.js/".

Definition html_script : string := Py.lit
"/languages/$lang.min.js`></script>
    <script>".

Definition html_tail : string := Py.lit
"</script>
    <div>
        <a href=`./` class=`hljs-subst`>Show directory.</a>&nbsp;&nbsp;|&nbsp;&nbsp;
        <a href=`$uri?raw=1` class=`hljs-subst`>Get the raw file here.</a>&nbsp;&nbsp;|&nbsp;&nbsp;
        <a href=`#` id=`prvstyle` class=`hljs-subst`>&larr;</a>&nbsp;Style&nbsp;
        `<span id=`style` style=`text-transform: capitalize; display: inline-block; min-width: 20ch;`></span>`
        &nbsp;<a href=`#` id=`nxtstyle` class=`hljs-subst`>&rarr;</a>&nbsp;&nbsp;|&nbsp;&nbsp;
        <a href=`#` id=`wrap` class=`hljs-subst`>Toggle wrapping.</a>
    </div>
    <pre><code id=`code` class=`$lang`></code></pre> </body>
</html>".

(** The document the substitution of lines 103-110 gives. *)
Definition document (styles : list string)
    (jquery_version highlight_version line_numbers_version : string) : string :=
  html_head +:+ MINIFIED_CSS +:+ html_body
    +:+ scripts_html jquery_version highlight_version line_numbers_version
    +:+ html_js_src +:+ highlight_version +:+ html_script
    +:+ "const STYLES=" +:+ Json.dumps styles +:+ ";" +:+ MINIFIED_JS +:+ html_tail.

(** The three queries of lines 67-69 returned these versions and, for
    the highlighting engine, these files. *)
Definition catalog_answers (cdnjs : string → list asset)
    (jv hv lv : string) (hf : list string) : Prop :=
  ∃ jf lf,
    get_cdn_files cdnjs "jquery" = Ok (jv, jf) ∧
    get_cdn_files cdnjs "highlight.js" = Ok (hv, hf) ∧
    get_cdn_files cdnjs "highlightjs-line-numbers.js" = Ok (lv, lf).

(** The snippet [run] returns for a style list that is already settled. *)
Definition snippet (iter : gset string → list string)
    (languages : list (string * string)) (styles : list string)
    (hf : list string) (html : string) : string :=
  Py.join Py.LF
    (snippet_lines iter languages styles
       (missing_languages languages (possible_languages hf))
       (missing_styles styles (possible_styles hf)) html).

(** The entries of [languages] whose rule is emitted. *)
Definition routed (languages : list (string * string)) (hf : list string)
    : list (string * string) :=
  List.filter
    (λ kv, bool_decide (kv.1 ∉ missing_languages languages (possible_languages hf)))
    languages.

(** ['x' * n] *)
Fixpoint repeat_char (c : ascii) (n : nat) : string :=
  match n with
  | O => ""
  | S n' => String c (repeat_char c n')
  end.

(** * Sample inputs *)

Definition demo_files : list string :=
  [ "highlight.min.js";
    "languages/bash.min.js"; "languages/cpp.min.js"; "languages/makefile.min.js";
    "languages/python.min.js";
    "styles/a11y-dark.min.css"; "styles/dark.min.css"; "styles/default.min.css";
    "styles/idea.min.css" ].

Definition demo_cdnjs (library : string) : list asset :=
  if String.eqb library "jquery" then
    [Asset "3.4.1" ["jquery.js"; "jquery.min.js"; "jquery.min.map"]]
  else if String.eqb library "highlight.js" then
    [Asset "9.15.10" demo_files]
  else if String.eqb library "highlightjs-line-numbers.js" then
    [Asset "2.7.0" ["highlightjs-line-numbers.min.js"]]
  else [].

Definition demo_languages : list (string * string) :=
  [ ("python", "\.(py)$"); ("cobol", "\.(cbl)$");
    ("makefile", "\.?(make|makefile)$"); ("cpp", "\.(c|cpp|h|hpp|make)$") ].

(** A minifier that leaves the document as it is. *)
Definition no_minify (html : string) : string := html.

Abbreviation demo_run styles :=
  (run demo_cdnjs no_minify elements demo_languages styles) (only parsing).

Definition output_of (r : result string) : string :=
  match r with
  | Ok out => out
  | Raise _ => ""
  end.

(** A style list that makes the document exactly 4096-20 characters long
    when the minifier leaves it as it is. *)
Definition styles_4076 : list string :=
  "default" :: (repeat_char "x" <$> seq 1 48) ++ [repeat_char "y" 41].

(** A catalog whose highlighting engine ships no style called "default". *)
Definition nodefault_files : list string :=
  [ "highlight.min.js"; "languages/python.min.js";
    "styles/dark.min.css"; "styles/idea.min.css" ].

Definition nodefault_cdnjs (library : string) : list asset :=
  if String.eqb library "highlight.js" then [Asset "9.15.10" nodefault_files]
  else demo_cdnjs library.

(** Two styles the catalog of [demo_cdnjs] does not have. *)
Definition absent_styles : list string := ["zenburn"; "monokai"].

(** The same iteration, backwards. *)
Definition backwards (X : gset string) : list string := reverse (elements X).

(** A catalog whose version of the highlighting engine holds the character
    reference of a single quote. *)
Definition apos_cdnjs (library : string) : list asset :=
  if String.eqb library "highlight.js" then [Asset "9.15.10&#39;" demo_files]
  else demo_cdnjs library.

(** A minifier that gives back the character reference [&#39;] as the
    character it stands for and leaves the rest of the document as it is.
    It stands for what an HTML minifier does to an attribute value: the
    parser hands the value over with its character references decoded, and
    the value is written back between double quotes. *)
Fixpoint decode_from (skip : nat) (s : string) : string :=
  match s with
  | EmptyString => EmptyString
  | String c s' =>
      match skip with
      | S n => decode_from n s'
      | O =>
          if String.prefix "&#39;" s then String "'" (decode_from 4 s')
          else String c (decode_from 0 s')
      end
  end.

Definition decode_apos (html : string) : string := decode_from 0 html.

(** The catalog of [demo_cdnjs] with a single style left. *)
Definition plain_files : list string :=
  [ "highlight.min.js";
    "languages/bash.min.js"; "languages/cpp.min.js"; "languages/makefile.min.js";
    "languages/python.min.js";
    "styles/default.min.css" ].

Definition plain_cdnjs (library : string) : list asset :=
  if String.eqb library "highlight.js" then [Asset "9.15.10" plain_files]
  else demo_cdnjs library.

(** * The configuration of [main] *)

(** [d[k] = v] on a [dict]: a key that is there keeps its place and takes
    the new value, a new key goes to the end. *)
Fixpoint dict_setitem (k v : string) (d : list (string * string)) : list (string * string) :=
  match d with
  | [] => [(k, v)]
  | (k', v') :: d' =>
      if String.eqb k' k then (k, v) :: d' else (k', v') :: dict_setitem k v d'
  end.

(** [d.update(k1=v1, k2=v2, ...)], in the order of the keyword arguments. *)
Definition dict_update (d : list (string * string)) (kw : list (string * string))
    : list (string * string) :=
  foldl (λ d kv, dict_setitem kv.1 kv.2 d) d kw.

(** [d.get(k)] *)
Fixpoint dict_get (k : string) (d : list (string * string)) : option string :=
  match d with
  | [] => None
  | (k', v) :: d' => if String.eqb k' k then Some v else dict_get k d'
  end.

(** Lines 29-31 of [main]: [{ext: r'\.(%s)$' % ext for ext in exts}], for
    extensions that are pairwise distinct. *)
Definition extension_patterns (exts : list string) : list (string * string) :=
  (λ ext, (ext, "\.(" +:+ ext +:+ ")$")) <$> exts.

Definition wanted_extensions : list string :=
  ["tcl"; "sql"; "gradle"; "groovy"; "java"; "lua"; "properties"; "scala"].

(** The keyword arguments of lines 33-50. *)
Definition special_cases : list (string * string) :=
  [ ("python", "\.(py)$");
    ("cpp", "\.(c|cpp|h|hpp)$");
    ("vhdl", "\.(vhdl?)$");
    ("bash", "\.(sh)$");
    ("makefile", "\.?(make|makefile)$");
    ("markdown", "\.(md|markdown)$");
    ("sql", "\.(sql)$");
    ("dos", "\.(bat)$");
    ("gcode", "\.(g|gcode)$");
    ("verilog", "\.(v|verilog)$");
    ("kotlin", "\.(kt)$");
    ("matlab", "\.(m)$");
    ("openscad", "\.(scad)$");
    ("powershell", "\.(ps)$");
    ("tex", "\.(latex|tex)$");
    ("dockerfile", "\.?(dockerfile)$") ].

(** Lines 29-50 of [main]. *)
Definition wanted_languages : list (string * string) :=
  dict_update (extension_patterns wanted_extensions) special_cases.

(** [c in s] for a single character. *)
Fixpoint has_char (c : ascii) (s : string) : bool :=
  match s with
  | EmptyString => false
  | String a s' => Ascii.eqb a c || has_char c s'
  end.

(** The first asset of a library's answer, when there is one. *)
Definition first_asset (cdnjs : string → list asset) (library : string) : option asset :=
  head (cdnjs library).

(** The catalog of [demo_cdnjs] with older releases after the first asset
    and other files beside the scripts. *)
Definition longer_cdnjs (library : string) : list asset :=
  if String.eqb library "jquery" then
    [Asset "3.4.1" ["jquery.slim.min.js"]; Asset "3.4.0" ["jquery.min.js"]]
  else if String.eqb library "highlight.js" then
    [Asset "9.15.10" demo_files; Asset "9.15.9" ["highlight.min.js"]]
  else if String.eqb library "highlightjs-line-numbers.js" then
    [Asset "2.7.0" []; Asset "2.6.0" ["highlightjs-line-numbers.min.js"]]
  else [].

(** * Properties *)

(** ** Strings and lists *)

Lemma app_assoc_str (a b c : string) : (a +:+ b) +:+ c = a +:+ b +:+ c.
Proof.
  induction a as [|x a IH]; [done|].
  unfold String.app in *. simpl. by rewrite IH.
Qed.

Lemma app_two_middle {A : Type} (a x y z c : list A) (p q : A) :
  a ++ (x ++ p :: y ++ q :: z) ++ c = (a ++ x) ++ p :: y ++ q :: (z ++ c).
Proof. rewrite <- !app_assoc. cbn [app]. rewrite <- !app_assoc. reflexivity. Qed.

Lemma filter_None_id (l : list string) :
  Forall (λ s, Py.truthy s = true) l → Py.filter_None l = l.
Proof.
  unfold Py.filter_None. induction 1 as [|s l Hs _ IH]; simpl; [done|].
  by rewrite Hs, IH.
Qed.

(** ** The assembled document *)

(** With the keyword arguments of [run] the substitution always succeeds. *)
Lemma assemble_Ok (styles : list string) (jv hv lv : string) :
  assemble styles jv hv lv = Ok (document styles jv hv lv).
Proof.
  unfold assemble, document, html_kw, Template.substitute.
  fold (scripts_html jv hv lv).
  generalize (scripts_html jv hv lv) (Json.dumps styles). intros sc st.
  vm_compute. reflexivity.
Qed.

(** ** What [run] computes once the catalog has answered *)

Section RunFacts.

Variable cdnjs : string → list asset.
Variable minify : string → string.
Variable iter : gset string → list string.

Lemma comment_lines_truthy languages styles ml ms :
  Forall (λ s, Py.truthy s = true) (comment_lines iter languages styles ml ms).
Proof. unfold comment_lines. repeat constructor. Qed.

Lemma location_gen_truthy languages ml :
  Forall (λ s, Py.truthy s = true) (location_gen languages ml).
Proof.
  unfold location_gen. apply Forall_fmap, Forall_forall. intros kv _. reflexivity.
Qed.

Lemma handler_lines_truthy html :
  Forall (λ s, Py.truthy s = true) (handler_lines html).
Proof. unfold handler_lines. repeat constructor. Qed.

Lemma snippet_lines_truthy languages styles ml ms html :
  Forall (λ s, Py.truthy s = true) (snippet_lines iter languages styles ml ms html).
Proof.
  unfold snippet_lines. rewrite !Forall_app.
  auto using comment_lines_truthy, location_gen_truthy, handler_lines_truthy.
Qed.

Lemma run_answers languages styles jv hv lv hf :
  catalog_answers cdnjs jv hv lv hf →
  run cdnjs minify iter languages styles =
    sl ← effective_styles iter styles (possible_styles hf);
    if Py.contains "'" (document sl jv hv lv) then Raise UnsafeLiteralError
    else if Py.len (minify (document sl jv hv lv)) >? 4096 - 20
         then Raise ConfigTooLargeError
         else Ok (snippet iter languages sl hf (minify (document sl jv hv lv))).
Proof.
  intros (jf & lf & Hj & Hh & Hl). unfold run. rewrite Hj, Hh, Hl.
  cbn [mbind result_bind].
  destruct (effective_styles iter styles (possible_styles hf)) as [sl|e];
    cbn [mbind result_bind]; [|done].
  rewrite assemble_Ok. cbn [mbind result_bind].
  destruct (Py.contains "'" (document sl jv hv lv)); [done|].
  destruct (Py.len (minify (document sl jv hv lv)) >? 4096 - 20); [done|].
  unfold snippet. by rewrite filter_None_id by apply snippet_lines_truthy.
Qed.

(** A successful run went through every check. *)
Lemma run_Ok_inv languages styles jv hv lv hf out :
  catalog_answers cdnjs jv hv lv hf →
  run cdnjs minify iter languages styles = Ok out →
  ∃ sl,
    effective_styles iter styles (possible_styles hf) = Ok sl ∧
    Py.contains "'" (document sl jv hv lv) = false ∧
    Py.len (minify (document sl jv hv lv)) ≤ 4096 - 20 ∧
    out = snippet iter languages sl hf (minify (document sl jv hv lv)).
Proof.
  intros Hc. rewrite (run_answers _ _ _ _ _ _ Hc).
  destruct (effective_styles iter styles (possible_styles hf)) as [sl|e];
    cbn [mbind result_bind]; [|done].
  destruct (Py.contains "'" (document sl jv hv lv)) eqn:Hq; [done|].
  destruct (Py.len (minify (document sl jv hv lv)) >? 4096 - 20) eqn:Hs; [done|].
  intros [= <-]. exists sl. split_and!; [done..| |done].
  rewrite Z.gtb_ltb in Hs. by apply Z.ltb_ge in Hs.
Qed.

(** ** Languages: requested, possible, missing, routed *)

Lemma location_gen_routed languages hf :
  location_gen languages (missing_languages languages (possible_languages hf))
  = location <$> routed languages hf.
Proof. reflexivity. Qed.

Lemma elem_of_routed languages hf kv :
  kv ∈ routed languages hf ↔ kv ∈ languages ∧ kv.1 ∈ possible_languages hf.
Proof.
  unfold routed. rewrite list_elem_of_In, filter_In, <- list_elem_of_In.
  rewrite bool_decide_eq_true. unfold missing_languages.
  split; intros [Hin H]; (split; [done|]).
  - destruct (decide (kv.1 ∈ possible_languages hf)) as [|Hn]; [done|].
    exfalso. apply H. apply elem_of_difference. split; [|done].
    apply elem_of_list_to_set, list_elem_of_fmap. by exists kv.
  - by intros [_ ?]%elem_of_difference.
Qed.

(** Filtering by "not missing" is filtering by "possible". *)
Lemma routed_possible languages hf :
  routed languages hf
  = List.filter (λ kv, bool_decide (kv.1 ∈ possible_languages hf)) languages.
Proof.
  unfold routed. apply List.filter_ext_in. intros kv Hin.
  apply bool_decide_ext. unfold missing_languages.
  rewrite not_elem_of_difference, elem_of_list_to_set, list_elem_of_fmap.
  split; [intros [Hn|]; [|done]|by right].
  exfalso. apply Hn. exists kv. by rewrite list_elem_of_In.
Qed.

End RunFacts.

(** ** The claims *)

(** C1: the languages for which [run] emits a routing rule are exactly the
    requested keys that are possible.  The rule lines of the output are
    those of [routed], every routed tag is a key of [languages], none is
    missing, and the missing and the routed tags partition the requested
    keys. *)
Theorem routed_languages_partition cdnjs minify iter languages styles jv hv lv hf out :
  catalog_answers cdnjs jv hv lv hf →
  run cdnjs minify iter languages styles = Ok out →
  (∃ sl html,
      out = Py.join Py.LF
              (comment_lines iter languages sl
                 (missing_languages languages (possible_languages hf))
                 (missing_styles sl (possible_styles hf))
               ++ (location <$> routed languages hf)
               ++ handler_lines html))
  ∧ (∀ k, k ∈ (routed languages hf).*1 ↔
          k ∈ languages.*1 ∧ k ∈ possible_languages hf)
  ∧ (∀ k, k ∈ (routed languages hf).*1 →
          k ∈ languages.*1 ∧ k ∉ missing_languages languages (possible_languages hf))
  ∧ missing_languages languages (possible_languages hf)
      ∪ list_to_set (routed languages hf).*1 = list_to_set languages.*1
  ∧ missing_languages languages (possible_languages hf)
      ## list_to_set (C := gset string) (routed languages hf).*1.
Proof.
  intros Hc Hrun.
  assert (Hk : ∀ k, k ∈ (routed languages hf).*1 ↔
                    k ∈ languages.*1 ∧ k ∈ possible_languages hf).
  { intros k. rewrite !list_elem_of_fmap. split.
    - intros (kv & -> & [Hin Hp]%elem_of_routed). split; [by exists kv|done].
    - intros [(kv & -> & Hin) Hp]. exists kv. split; [done|]. by apply elem_of_routed. }
  split_and!.
  - destruct (run_Ok_inv _ _ _ _ _ _ _ _ _ _ Hc Hrun) as (sl & _ & _ & _ & ->).
    by exists sl, (minify (document sl jv hv lv)).
  - exact Hk.
  - intros k [Hin Hp]%Hk. split; [done|]. unfold missing_languages. set_solver.
  - apply set_eq. intros k. unfold missing_languages.
    rewrite elem_of_union, elem_of_difference, !elem_of_list_to_set, Hk.
    destruct (decide (k ∈ possible_languages hf)); naive_solver.
  - apply elem_of_disjoint. intros k. unfold missing_languages.
    rewrite elem_of_difference, !elem_of_list_to_set, Hk. naive_solver.
Qed.

Lemma routed_languages_partition_witness :
  catalog_answers demo_cdnjs "3.4.1" "9.15.10" "2.7.0" demo_files
  ∧ demo_run None = Ok (output_of (demo_run None))
  ∧ missing_languages demo_languages (possible_languages demo_files)
      ∪ list_to_set (routed demo_languages demo_files).*1
    = list_to_set demo_languages.*1.
Proof.
  assert (Ha : catalog_answers demo_cdnjs "3.4.1" "9.15.10" "2.7.0" demo_files).
  { eexists _, _. split_and!; reflexivity. }
  assert (Hr : demo_run None = Ok (output_of (demo_run None))).
  { vm_compute. reflexivity. }
  split_and!; [exact Ha|exact Hr|].
  exact (proj1 (proj2 (proj2 (proj2
    (routed_languages_partition demo_cdnjs no_minify elements demo_languages None
       "3.4.1" "9.15.10" "2.7.0" demo_files (output_of (demo_run None)) Ha Hr))))).
Defined.

(** C7: the routing rules appear in the insertion order of [languages],
    restricted to the possible languages; of two requested and possible
    languages, the rule of the one that comes first in [languages] is an
    earlier line of the output. *)
Theorem rules_in_insertion_order cdnjs minify iter languages styles jv hv lv hf out :
  catalog_answers cdnjs jv hv lv hf →
  run cdnjs minify iter languages styles = Ok out →
  (∃ sl html,
      out = Py.join Py.LF
              (comment_lines iter languages sl
                 (missing_languages languages (possible_languages hf))
                 (missing_styles sl (possible_styles hf))
               ++ (location <$>
                     List.filter (λ kv, bool_decide (kv.1 ∈ possible_languages hf)) languages)
               ++ handler_lines html))
  ∧ (∀ l1 kv1 l2 kv2 l3,
        languages = l1 ++ kv1 :: l2 ++ kv2 :: l3 →
        kv1.1 ∈ possible_languages hf →
        kv2.1 ∈ possible_languages hf →
        ∃ above below : list string,
          out = Py.join Py.LF
                  (above ++ location kv1
                     :: (location <$>
                           List.filter (λ kv, bool_decide (kv.1 ∈ possible_languages hf)) l2)
                     ++ location kv2 :: below)).
Proof.
  intros Hc Hrun.
  destruct (run_Ok_inv _ _ _ _ _ _ _ _ _ _ Hc Hrun) as (sl & _ & _ & _ & ->).
  unfold snippet, snippet_lines. rewrite location_gen_routed, routed_possible.
  split; [by eexists _, _|].
  intros l1 kv1 l2 kv2 l3 -> H1 H2.
  rewrite List.filter_app. cbn [List.filter]. rewrite (bool_decide_eq_true_2 _ H1).
  rewrite List.filter_app. cbn [List.filter]. rewrite (bool_decide_eq_true_2 _ H2).
  rewrite !fmap_app, !fmap_cons, fmap_app, fmap_cons, app_two_middle.
  by eexists _, _.
Qed.

Lemma rules_in_insertion_order_witness :
  demo_run None = Ok (output_of (demo_run None))
  ∧ ∃ above below : list string,
      output_of (demo_run None)
      = Py.join Py.LF
          (above ++ location ("makefile", "\.?(make|makefile)$")
             :: (location <$>
                   List.filter (λ kv, bool_decide (kv.1 ∈ possible_languages demo_files)) [])
             ++ location ("cpp", "\.(c|cpp|h|hpp|make)$") :: below).
Proof.
  assert (Ha : catalog_answers demo_cdnjs "3.4.1" "9.15.10" "2.7.0" demo_files).
  { eexists _, _. split_and!; reflexivity. }
  assert (Hr : demo_run None = Ok (output_of (demo_run None))).
  { vm_compute. reflexivity. }
  split; [exact Hr|].
  apply (proj2 (rules_in_insertion_order demo_cdnjs no_minify elements demo_languages None
                  "3.4.1" "9.15.10" "2.7.0" demo_files (output_of (demo_run None)) Ha Hr)
           [("python", "\.(py)$"); ("cobol", "\.(cbl)$")]
           ("makefile", "\.?(make|makefile)$") []
           ("cpp", "\.(c|cpp|h|hpp|make)$") []).
  - reflexivity.
  - apply (bool_decide_unpack _). vm_compute. exact I.
  - apply (bool_decide_unpack _). vm_compute. exact I.
Defined.

(** C2, as the claim states it, fails: a minified document of exactly
    4096-20 = 4076 characters passes the size check of line 122, and [run]
    returns the snippet. *)
Lemma size_4076_is_accepted :
  Py.len (no_minify (document styles_4076 "3.4.1" "9.15.10" "2.7.0")) = 4096 - 20
  ∧ demo_run (Some styles_4076) = Ok (output_of (demo_run (Some styles_4076)))
  ∧ demo_run (Some styles_4076) ≠ Raise ConfigTooLargeError.
Proof.
  assert (Hr : demo_run (Some styles_4076) = Ok (output_of (demo_run (Some styles_4076)))).
  { vm_compute. reflexivity. }
  split_and!; [vm_compute; reflexivity|exact Hr|].
  intros Hc. pose proof (eq_trans (eq_sym Hr) Hc) as E. discriminate E.
Qed.

(** C2, amended: the minified document embedded in the output is at most
    4096-20 = 4076 characters long.  When the assembled document has no
    single quote, [run] raises the size error exactly when the minified
    document is longer than 4076 characters; a document of 4076 characters
    is accepted. *)
Theorem size_guard cdnjs minify iter languages styles jv hv lv hf :
  catalog_answers cdnjs jv hv lv hf →
  (∀ out, run cdnjs minify iter languages styles = Ok out →
     ∃ sl,
       effective_styles iter styles (possible_styles hf) = Ok sl ∧
       Py.len (minify (document sl jv hv lv)) ≤ 4096 - 20 ∧
       out = snippet iter languages sl hf (minify (document sl jv hv lv)))
  ∧ (∀ sl,
       effective_styles iter styles (possible_styles hf) = Ok sl →
       Py.contains "'" (document sl jv hv lv) = false →
       (4096 - 20 < Py.len (minify (document sl jv hv lv)) →
          run cdnjs minify iter languages styles = Raise ConfigTooLargeError)
       ∧ (Py.len (minify (document sl jv hv lv)) ≤ 4096 - 20 →
          run cdnjs minify iter languages styles
          = Ok (snippet iter languages sl hf (minify (document sl jv hv lv))))).
Proof.
  intros Hc. split.
  - intros out Hrun.
    destruct (run_Ok_inv _ _ _ _ _ _ _ _ _ _ Hc Hrun) as (sl & Hsl & _ & Hlen & ->).
    by exists sl.
  - intros sl Hsl Hq. rewrite (run_answers _ _ _ _ _ _ _ _ _ Hc), Hsl.
    cbn [mbind result_bind]. rewrite Hq, Z.gtb_ltb. split; intros Hlen.
    + by rewrite (proj2 (Z.ltb_lt _ _) Hlen).
    + by rewrite (proj2 (Z.ltb_ge _ _) Hlen).
Qed.

Lemma size_guard_witness :
  catalog_answers demo_cdnjs "3.4.1" "9.15.10" "2.7.0" demo_files
  ∧ (∀ out, demo_run (Some styles_4076) = Ok out →
       ∃ sl,
         effective_styles elements (Some styles_4076) (possible_styles demo_files) = Ok sl ∧
         Py.len (no_minify (document sl "3.4.1" "9.15.10" "2.7.0")) ≤ 4096 - 20 ∧
         out = snippet elements demo_languages sl demo_files
                 (no_minify (document sl "3.4.1" "9.15.10" "2.7.0"))).
Proof.
  assert (Ha : catalog_answers demo_cdnjs "3.4.1" "9.15.10" "2.7.0" demo_files).
  { eexists _, _. split_and!; reflexivity. }
  split; [exact Ha|].
  exact (proj1 (size_guard demo_cdnjs no_minify elements demo_languages (Some styles_4076)
                  "3.4.1" "9.15.10" "2.7.0" demo_files Ha)).
Defined.

(** The check of line 113 comes before the size check of line 122: a single
    quote in the assembled document makes [run] raise the unsafe-literal
    error whatever the size of the minified document, and the assembled
    document of a run that returns has none. *)
Lemma quote_check_before_size_check cdnjs minify iter languages styles jv hv lv hf sl html :
  catalog_answers cdnjs jv hv lv hf →
  effective_styles iter styles (possible_styles hf) = Ok sl →
  assemble sl jv hv lv = Ok html →
  (Py.contains "'" html = true →
     run cdnjs minify iter languages styles = Raise UnsafeLiteralError)
  ∧ (Py.contains "'" html = true →
     (Py.len (minify html) >? 4096 - 20) = true →
     run cdnjs minify iter languages styles = Raise UnsafeLiteralError
     ∧ run cdnjs minify iter languages styles ≠ Raise ConfigTooLargeError)
  ∧ (∀ out, run cdnjs minify iter languages styles = Ok out →
       Py.contains "'" html = false
       ∧ out = snippet iter languages sl hf (minify html)).
Proof.
  intros Hc Hsl. rewrite assemble_Ok. intros [= <-].
  rewrite (run_answers _ _ _ _ _ _ _ _ _ Hc), Hsl. cbn [mbind result_bind].
  destruct (Py.contains "'" (document sl jv hv lv)) eqn:Hq.
  - split_and!; [done| |done]. intros _ _. split; [done|]. discriminate.
  - split_and!; [done..|]. intros out Hout. split; [done|].
    destruct (Py.len (minify (document sl jv hv lv)) >? 4096 - 20); [done|].
    by injection Hout as <-.
Qed.

(** Nothing looks at the document once it is minified: when the assembled
    document passes the check of line 113 and the minified one has at most
    4096-20 characters, [run] returns the snippet with the minified document
    between the single quotes of line 146, whatever that document holds. *)
Lemma run_embeds_minified cdnjs minify iter languages styles jv hv lv hf sl :
  catalog_answers cdnjs jv hv lv hf →
  effective_styles iter styles (possible_styles hf) = Ok sl →
  Py.contains "'" (document sl jv hv lv) = false →
  Py.len (minify (document sl jv hv lv)) ≤ 4096 - 20 →
  run cdnjs minify iter languages styles
  = Ok (snippet iter languages sl hf (minify (document sl jv hv lv)))
  ∧ handler_lines (minify (document sl jv hv lv)) !! 9%nat
    = Some ("    return 200 '" +:+ minify (document sl jv hv lv) +:+ "';").
Proof.
  intros Hc Hsl Hq Hlen. split; [|reflexivity].
  rewrite (run_answers _ _ _ _ _ _ _ _ _ Hc), Hsl. cbn [mbind result_bind].
  rewrite Hq, Z.gtb_ltb, (proj2 (Z.ltb_ge _ _) Hlen). reflexivity.
Qed.

(** C3, at a catalog whose version of the highlighting engine is
    ["9.15.10&#39;"]: the assembled document has no single quote and passes
    the check of line 113; the minifier gives the character reference back
    as a single quote inside the [src] attributes; [run] raises nothing and
    returns the snippet whose line [return 200 '...';] holds that document,
    single quote included.  The claim has no document with a raw single
    quote reach the output. *)
Theorem minified_document_is_not_checked :
  Py.contains "'" (document ["default"] "3.4.1" "9.15.10&#39;" "2.7.0") = false
  ∧ Py.contains "'"
      (decode_apos (document ["default"] "3.4.1" "9.15.10&#39;" "2.7.0")) = true
  ∧ run apos_cdnjs decode_apos elements demo_languages (Some ["default"])
    = Ok (snippet elements demo_languages ["default"] demo_files
            (decode_apos (document ["default"] "3.4.1" "9.15.10&#39;" "2.7.0")))
  ∧ handler_lines (decode_apos (document ["default"] "3.4.1" "9.15.10&#39;" "2.7.0"))
      !! 9%nat
    = Some ("    return 200 '"
            +:+ decode_apos (document ["default"] "3.4.1" "9.15.10&#39;" "2.7.0")
            +:+ "';")
  ∧ create_script_tag "highlight.js" "9.15.10&#39;" "highlight.min.js"
    = Py.lit "<script src=`https://cdnjs.cloudflare.com/ajax/libs/highlight.js/9.15.10&#39;/highlight.min.js`></script>"
  ∧ decode_apos (create_script_tag "highlight.js" "9.15.10&#39;" "highlight.min.js")
    = Py.lit "<script src=`https://cdnjs.cloudflare.com/ajax/libs/highlight.js/9.15.10'/highlight.min.js`></script>".
Proof.
  assert (Ha : catalog_answers apos_cdnjs "3.4.1" "9.15.10&#39;" "2.7.0" demo_files).
  { eexists _, _. split_and!; reflexivity. }
  assert (Hq : Py.contains "'" (document ["default"] "3.4.1" "9.15.10&#39;" "2.7.0")
               = false).
  { vm_compute. reflexivity. }
  assert (Hlen : Py.len (decode_apos (document ["default"] "3.4.1" "9.15.10&#39;" "2.7.0"))
                 ≤ 4096 - 20).
  { vm_compute. discriminate. }
  destruct (run_embeds_minified apos_cdnjs decode_apos elements demo_languages
              (Some ["default"]) "3.4.1" "9.15.10&#39;" "2.7.0" demo_files ["default"]
              Ha eq_refl Hq Hlen) as [Hrun Hline].
  split_and!; [exact Hq| |exact Hrun|exact Hline| |]; vm_compute; reflexivity.
Qed.

(** ** The default style list *)

Lemma list_remove_absent (x : string) (l : list string) :
  x ∉ l → Py.list_remove x l = Raise (ValueError "list.remove(x): x not in list").
Proof.
  induction l as [|y l IH]; intros Hx; cbn [Py.list_remove]; [done|].
  apply not_elem_of_cons in Hx as [Hne Hx].
  destruct (String.eqb_spec y x) as [->|_]; [done|].
  rewrite (IH Hx). reflexivity.
Qed.

Lemma list_remove_present (x : string) (l : list string) :
  x ∈ l →
  ∃ l1 l2, l = l1 ++ x :: l2 ∧ Py.list_remove x l = Ok (l1 ++ l2).
Proof.
  induction l as [|y l IH]; intros Hx; [by apply elem_of_nil in Hx|].
  cbn [Py.list_remove]. destruct (String.eqb_spec y x) as [->|Hne].
  - by exists [], l.
  - apply elem_of_cons in Hx as [->|Hx]; [done|].
    destruct (IH Hx) as (l1 & l2 & -> & ->). by exists (y :: l1), l2.
Qed.

Section Normalization.

Variable iter : gset string → list string.

(** Iterating over a set yields each of its elements once, in an order
    that is the interpreter's. *)
Hypothesis iter_perm : ∀ X, iter X ≡ₚ elements X.

Lemma sorted_iter (X : gset string) : Py.sorted (iter X) = Py.sorted (elements X).
Proof.
  unfold Py.sorted. apply (Sorted_unique String.le).
  - apply Sorted_merge_sort, _.
  - apply Sorted_merge_sort, _.
  - by rewrite !merge_sort_Permutation.
Qed.

(** Line 85 raises when the catalog has no style called "default". *)
Lemma effective_styles_no_default (ps : gset string) :
  "default" ∉ ps →
  effective_styles iter None ps = Raise (ValueError "list.remove(x): x not in list").
Proof.
  intros Hd. unfold effective_styles. rewrite list_remove_absent; [done|].
  unfold Py.sorted. by rewrite merge_sort_Permutation, iter_perm, elem_of_elements.
Qed.

(** With a style called "default" in the catalog, the list is "default"
    followed by the other possible styles, sorted. *)
Lemma effective_styles_default (ps : gset string) :
  "default" ∈ ps →
  effective_styles iter None ps
  = Ok ("default" :: Py.sorted (elements (ps ∖ {["default"]}))).
Proof.
  intros Hd. unfold effective_styles, Py.list_insert0. rewrite sorted_iter.
  destruct (list_remove_present "default" (Py.sorted (elements ps))) as (l1 & l2 & Hl & ->).
  { unfold Py.sorted. by rewrite merge_sort_Permutation, elem_of_elements. }
  cbn [mbind result_bind]. do 2 f_equal.
  assert (Hs : StronglySorted String.le (l1 ++ "default" :: l2)).
  { rewrite <- Hl. apply StronglySorted_merge_sort; apply _. }
  apply (Sorted_unique String.le).
  - apply StronglySorted_Sorted.
    apply StronglySorted_app in Hs as (H12 & H1 & H2).
    apply StronglySorted_cons in H2 as [_ H2].
    apply StronglySorted_app_2; [|done..].
    intros x1 x2 Hx1 Hx2. apply H12; [done|]. by apply elem_of_cons; right.
  - apply Sorted_merge_sort, _.
  - unfold Py.sorted. rewrite merge_sort_Permutation.
    apply (Permutation_cons_inv (a := "default")).
    rewrite <- elements_union_singleton by set_solver.
    rewrite Permutation_middle, <- Hl. unfold Py.sorted.
    rewrite merge_sort_Permutation.
    assert ({["default"]} ∪ ps ∖ {["default"]} = ps) as ->; [|done].
    apply set_eq. intros x. rewrite elem_of_union, elem_of_difference, elem_of_singleton.
    destruct (decide (x = "default")) as [->|]; naive_solver.
Qed.

End Normalization.

(** C9: when the catalog has no style called "default" and the caller
    leaves the styles out, [run] raises the [ValueError] of [list.remove]
    and returns nothing. *)
Theorem no_default_style_raises cdnjs minify iter languages jv hv lv hf :
  (∀ X, iter X ≡ₚ elements X) →
  catalog_answers cdnjs jv hv lv hf →
  "default" ∉ possible_styles hf →
  run cdnjs minify iter languages None
    = Raise (ValueError "list.remove(x): x not in list")
  ∧ ∀ out, run cdnjs minify iter languages None ≠ Ok out.
Proof.
  intros Hiter Hc Hd.
  assert (Hrun : run cdnjs minify iter languages None
                 = Raise (ValueError "list.remove(x): x not in list")).
  { rewrite (run_answers _ _ _ _ _ _ _ _ _ Hc).
    by rewrite (effective_styles_no_default iter Hiter _ Hd). }
  split; [exact Hrun|]. intros out Hout.
  pose proof (eq_trans (eq_sym Hrun) Hout) as E. discriminate E.
Qed.

Lemma no_default_style_raises_witness :
  (∀ X : gset string, elements X ≡ₚ elements X)
  ∧ catalog_answers nodefault_cdnjs "3.4.1" "9.15.10" "2.7.0" nodefault_files
  ∧ ("default" ∉ possible_styles nodefault_files)
  ∧ run nodefault_cdnjs no_minify elements demo_languages None
    = Raise (ValueError "list.remove(x): x not in list").
Proof.
  assert (Hi : ∀ X : gset string, elements X ≡ₚ elements X).
  { intros X. reflexivity. }
  assert (Ha : catalog_answers nodefault_cdnjs "3.4.1" "9.15.10" "2.7.0" nodefault_files).
  { eexists _, _. split_and!; reflexivity. }
  assert (Hd : "default" ∉ possible_styles nodefault_files).
  { apply (bool_decide_unpack _). vm_compute. exact I. }
  split_and!; [exact Hi|exact Ha|exact Hd|].
  exact (proj1 (no_default_style_raises nodefault_cdnjs no_minify elements demo_languages
                  "3.4.1" "9.15.10" "2.7.0" nodefault_files Hi Ha Hd)).
Defined.

(** C4, at a catalog without a style called "default": the sorted possible
    styles are "dark" and "idea", and the claim has [run] go on with that
    list; the code raises at line 85 instead.  With "default" in the
    catalog the list is as the claim says, see [effective_styles_default]. *)
Theorem omitted_styles_without_default :
  ("default" ∉ possible_styles nodefault_files)
  ∧ Py.sorted (elements (possible_styles nodefault_files)) = ["dark"; "idea"]
  ∧ effective_styles elements None (possible_styles nodefault_files)
    = Raise (ValueError "list.remove(x): x not in list")
  ∧ run nodefault_cdnjs no_minify elements demo_languages None
    = Raise (ValueError "list.remove(x): x not in list").
Proof.
  split_and!.
  - apply (bool_decide_unpack _). vm_compute. exact I.
  - vm_compute. reflexivity.
  - vm_compute. reflexivity.
  - vm_compute. reflexivity.
Qed.

(** ** Identifiers cut out of the file paths *)

Lemma length_app_str (a b : string) :
  String.length (a +:+ b) = (String.length a + String.length b)%nat.
Proof.
  induction a as [|c a IH]; [done|].
  unfold String.app in *. simpl. by rewrite IH.
Qed.

Lemma substring_skip (p r : string) (m : nat) :
  String.substring (String.length p) m (p +:+ r) = String.substring 0 m r.
Proof. induction p as [|c p IH]; [done|]. unfold String.app in *. simpl. exact IH. Qed.

Lemma substring_take (name s : string) :
  String.substring 0 (String.length name) (name +:+ s) = name.
Proof.
  induction name as [|c name IH]; [by destruct s|].
  unfold String.app in *. simpl. by rewrite IH.
Qed.

Lemma startswith_app (p r : string) : Py.startswith p (p +:+ r) = true.
Proof.
  unfold Py.startswith. induction p as [|c p IH]; [by destruct r|].
  unfold String.app in *. simpl. by destruct (ascii_dec c c).
Qed.

(** On a path that starts with [p] and ends with the non-empty [s], the
    slice from [len(p)] to [-len(s)] is what lies between the two. *)
Lemma slice_strips (p name s : string) :
  s ≠ "" →
  Py.slice (Py.len p) (- Py.len s) (p +:+ name +:+ s) = name.
Proof.
  intros Hs. unfold Py.slice, Py.clip, Py.len. rewrite !length_app_str.
  assert (0 < String.length s)%nat by (destruct s; [done|simpl; lia]).
  destruct (Z.ltb_spec (Z.of_nat (String.length p)) 0); [lia|].
  destruct (Z.ltb_spec (- Z.of_nat (String.length s)) 0); [|lia].
  replace (Z.to_nat (Z.min _ _)) with (String.length p) by lia.
  replace (Z.to_nat (_ - _)) with (String.length name) by lia.
  by rewrite substring_skip, substring_take.
Qed.

Lemma possible_languages_stripped (hf : list string) (name : string) :
  "languages/" +:+ name +:+ ".min.js" ∈ hf → name ∈ possible_languages hf.
Proof.
  intros Hin. unfold possible_languages.
  apply elem_of_list_to_set, list_elem_of_fmap.
  exists ("languages/" +:+ name +:+ ".min.js"). split.
  - symmetry. by apply (slice_strips "languages/" name ".min.js").
  - apply list_elem_of_In, filter_In. split; [by apply list_elem_of_In|].
    apply startswith_app.
Qed.

Lemma possible_styles_stripped (hf : list string) (name : string) :
  "styles/" +:+ name +:+ ".min.css" ∈ hf → name ∈ possible_styles hf.
Proof.
  intros Hin. unfold possible_styles.
  apply elem_of_list_to_set, list_elem_of_fmap.
  exists ("styles/" +:+ name +:+ ".min.css"). split.
  - symmetry. by apply (slice_strips "styles/" name ".min.css").
  - apply list_elem_of_In, filter_In. split; [by apply list_elem_of_In|].
    apply startswith_app.
Qed.

(** Every possible language comes from a path with the prefix; nothing
    looks at how the path ends. *)
Lemma elem_of_possible_languages (hf : list string) (k : string) :
  k ∈ possible_languages hf ↔
  ∃ x, x ∈ hf ∧ Py.startswith "languages/" x = true ∧ k = Py.slice 10 (-7) x.
Proof.
  unfold possible_languages. rewrite elem_of_list_to_set, list_elem_of_fmap.
  split.
  - intros (x & -> & [Hin Hp]%list_elem_of_In%filter_In). exists x.
    by rewrite list_elem_of_In.
  - intros (x & Hin & Hp & ->). exists x. split; [done|].
    apply list_elem_of_In, filter_In. by rewrite <- list_elem_of_In.
Qed.

(** C5, at paths that have the prefix and another suffix: the image
    ["styles/pojoaque.jpg"] of the engine's style directory gives the style
    "pojo", and ["languages/python.js"] gives the language "py", where the
    claim has them give nothing. *)
Theorem prefix_alone_yields_identifier :
  Py.startswith "styles/" "styles/pojoaque.jpg" = true
  ∧ Py.slice 7 (-8) "styles/pojoaque.jpg" = "pojo"
  ∧ ("pojo" ∈ possible_styles ["styles/default.min.css"; "styles/pojoaque.jpg"])
  ∧ Py.startswith "languages/" "languages/python.js" = true
  ∧ Py.slice 10 (-7) "languages/python.js" = "py"
  ∧ ("py" ∈ possible_languages ["languages/python.min.js"; "languages/python.js"]).
Proof.
  split_and!; try (vm_compute; reflexivity);
    apply (bool_decide_unpack _); vm_compute; exact I.
Qed.

(** ** The order of the missing styles *)

(** C6, at a style list with two missing styles: the line of missing
    styles is joined from the set in the order the interpreter iterates it,
    so two orders of iteration give two different outputs for the same
    catalog, languages and styles.  (The omitted style list of line 84 is
    sorted, and does not depend on that order: [sorted_iter].) *)
Theorem missing_styles_follow_iteration_order :
  (∀ X : gset string, backwards X ≡ₚ elements X)
  ∧ run demo_cdnjs no_minify elements demo_languages (Some absent_styles)
    = Ok (output_of (run demo_cdnjs no_minify elements demo_languages (Some absent_styles)))
  ∧ run demo_cdnjs no_minify backwards demo_languages (Some absent_styles)
    = Ok (output_of (run demo_cdnjs no_minify backwards demo_languages (Some absent_styles)))
  ∧ output_of (run demo_cdnjs no_minify elements demo_languages (Some absent_styles))
    ≠ output_of (run demo_cdnjs no_minify backwards demo_languages (Some absent_styles))
  ∧ comment_lines elements demo_languages absent_styles
      (missing_languages demo_languages (possible_languages demo_files))
      (missing_styles absent_styles (possible_styles demo_files)) !! 5%nat
    = Some "# Missing styles: monokai, zenburn"
  ∧ comment_lines backwards demo_languages absent_styles
      (missing_languages demo_languages (possible_languages demo_files))
      (missing_styles absent_styles (possible_styles demo_files)) !! 5%nat
    = Some "# Missing styles: zenburn, monokai".
Proof.
  split_and!; try (vm_compute; reflexivity).
  - intros X. apply reverse_Permutation.
  - apply String.eqb_neq. vm_compute. reflexivity.
Qed.

(** ** Errors do not depend on the languages *)

Lemma run_error_any_languages cdnjs minify iter styles languages languages' e :
  run cdnjs minify iter languages styles = Raise e →
  run cdnjs minify iter languages' styles = Raise e.
Proof.
  unfold run.
  destruct (get_cdn_files cdnjs "jquery") as [[jv jf]|e1];
    cbn [mbind result_bind]; [|done].
  destruct (get_cdn_files cdnjs "highlight.js") as [[hv hf]|e2];
    cbn [mbind result_bind]; [|done].
  destruct (get_cdn_files cdnjs "highlightjs-line-numbers.js") as [[lv lf]|e3];
    cbn [mbind result_bind]; [|done].
  destruct (effective_styles iter styles (possible_styles hf)) as [sl|e4];
    cbn [mbind result_bind]; [|done].
  rewrite assemble_Ok. cbn [mbind result_bind].
  destruct (Py.contains "'" (document sl jv hv lv)); [done|].
  destruct (Py.len (minify (document sl jv hv lv)) >? 4096 - 20); [done|].
  discriminate.
Qed.

(** C8: a requested language the catalog does not have is never the cause
    of an error: whatever error [run] raises, it raises for every
    [languages].  When the run with no language succeeds, the run with one
    language that is not possible succeeds too, emits no routing rule and
    lists that language on the line of missing languages; and when every
    requested language is possible, that line reads "None". *)
Theorem missing_languages_are_not_fatal cdnjs minify iter styles jv hv lv hf out0 :
  catalog_answers cdnjs jv hv lv hf →
  run cdnjs minify iter [] styles = Ok out0 →
  (∀ languages languages' e,
     run cdnjs minify iter languages styles = Raise e →
     run cdnjs minify iter languages' styles = Raise e)
  ∧ ∃ sl html,
      (∀ k r,
         k ∉ possible_languages hf →
         run cdnjs minify iter [(k, r)] styles
         = Ok (Py.join Py.LF
                 (comment_lines iter [(k, r)] sl
                    (missing_languages [(k, r)] (possible_languages hf))
                    (missing_styles sl (possible_styles hf))
                  ++ handler_lines html))
         ∧ location_gen [(k, r)] (missing_languages [(k, r)] (possible_languages hf)) = []
         ∧ comment_lines iter [(k, r)] sl
             (missing_languages [(k, r)] (possible_languages hf))
             (missing_styles sl (possible_styles hf)) !! 4%nat
           = Some ("# Missing languages: " +:+ k +:+ ": " +:+ r))
      ∧ (∀ languages,
           (∀ k, k ∈ languages.*1 → k ∈ possible_languages hf) →
           run cdnjs minify iter languages styles
           = Ok (Py.join Py.LF
                   (comment_lines iter languages sl
                      (missing_languages languages (possible_languages hf))
                      (missing_styles sl (possible_styles hf))
                    ++ (location <$> languages)
                    ++ handler_lines html))
           ∧ comment_lines iter languages sl
               (missing_languages languages (possible_languages hf))
               (missing_styles sl (possible_styles hf)) !! 4%nat
             = Some "# Missing languages: None").
Proof.
  intros Hc Hrun0. split; [intros ???; apply run_error_any_languages|].
  destruct (run_Ok_inv _ _ _ _ _ _ _ _ _ _ Hc Hrun0) as (sl & Hsl & Hq & Hlen & _).
  assert (Hrun : ∀ languages,
             run cdnjs minify iter languages styles
             = Ok (snippet iter languages sl hf (minify (document sl jv hv lv)))).
  { intros languages. rewrite (run_answers _ _ _ _ _ _ _ _ _ Hc), Hsl.
    cbn [mbind result_bind]. rewrite Hq, Z.gtb_ltb.
    by rewrite (proj2 (Z.ltb_ge _ _) Hlen). }
  exists sl, (minify (document sl jv hv lv)). split.
  - intros k r Hk.
    assert (Hin : k ∈ missing_languages [(k, r)] (possible_languages hf)).
    { unfold missing_languages. apply elem_of_difference. split; [|done].
      apply elem_of_list_to_set. cbn [fmap list_fmap fst]. apply list_elem_of_here. }
    assert (Hgen : location_gen [(k, r)] (missing_languages [(k, r)] (possible_languages hf))
                   = []).
    { unfold location_gen. cbn [List.filter fst].
      by rewrite bool_decide_eq_false_2 by (intros Hn; by apply Hn). }
    split_and!; [|exact Hgen|].
    + rewrite Hrun. unfold snippet, snippet_lines. by rewrite Hgen.
    + unfold comment_lines. cbn [List.filter fst].
      rewrite (bool_decide_eq_true_2 _ Hin).
      rewrite bool_decide_eq_true_2 by (intros E; rewrite E in Hin; by apply not_elem_of_empty in Hin).
      reflexivity.
  - intros languages Hall.
    assert (Hml : missing_languages languages (possible_languages hf) = ∅).
    { apply set_eq. intros k. unfold missing_languages.
      rewrite elem_of_difference, elem_of_list_to_set. split; [|by intros ?%not_elem_of_empty].
      intros [Hk Hn]. destruct Hn. by apply Hall. }
    split.
    + rewrite Hrun. unfold snippet, snippet_lines. do 4 f_equal.
      rewrite location_gen_routed, routed_possible. f_equal.
      apply forallb_filter_id. 
      apply forallb_forall. intros kv Hkv. apply bool_decide_eq_true_2, Hall.
      apply list_elem_of_fmap. exists kv. by rewrite list_elem_of_In.
    + unfold comment_lines. rewrite Hml.
      by rewrite bool_decide_eq_false_2 by (intros Hn; by apply Hn).
Qed.

Lemma missing_languages_are_not_fatal_witness :
  catalog_answers demo_cdnjs "3.4.1" "9.15.10" "2.7.0" demo_files
  ∧ run demo_cdnjs no_minify elements [] None
    = Ok (output_of (run demo_cdnjs no_minify elements [] None))
  ∧ (∀ languages languages' e,
       run demo_cdnjs no_minify elements languages None = Raise e →
       run demo_cdnjs no_minify elements languages' None = Raise e).
Proof.
  assert (Ha : catalog_answers demo_cdnjs "3.4.1" "9.15.10" "2.7.0" demo_files).
  { eexists _, _. split_and!; reflexivity. }
  assert (Hr : run demo_cdnjs no_minify elements [] None
               = Ok (output_of (run demo_cdnjs no_minify elements [] None))).
  { vm_compute. reflexivity. }
  split_and!; [exact Ha|exact Hr|].
  exact (proj1 (missing_languages_are_not_fatal demo_cdnjs no_minify elements None
                  "3.4.1" "9.15.10" "2.7.0" demo_files
                  (output_of (run demo_cdnjs no_minify elements [] None)) Ha Hr)).
Defined.

(** ** Styles the caller supplies *)

(** C10: with a style list from the caller, which styles are missing
    changes nothing but the line of missing styles.  The document holds
    the whole list, in the caller's order, as the array [STYLES], and so
    does the line of requested styles; a catalog with the same versions and
    languages and any other styles gives the same document, the same rules
    and the same comment lines, the sixth apart. *)
Theorem supplied_styles_pass_through
    cdnjs cdnjs' minify iter languages sl jv hv lv hf hf' out :
  catalog_answers cdnjs jv hv lv hf →
  catalog_answers cdnjs' jv hv lv hf' →
  possible_languages hf' = possible_languages hf →
  run cdnjs minify iter languages (Some sl) = Ok out →
  ∃ html above below,
    assemble sl jv hv lv = Ok html
    ∧ html = above +:+ "const STYLES=" +:+ Json.dumps sl +:+ ";" +:+ below
    ∧ Json.dumps sl = "[" +:+ Py.join "," (Json.dumps_str <$> sl) +:+ "]"
    ∧ out = Py.join Py.LF
              (comment_lines iter languages sl
                 (missing_languages languages (possible_languages hf))
                 (missing_styles sl (possible_styles hf))
               ++ location_gen languages
                    (missing_languages languages (possible_languages hf))
               ++ handler_lines (minify html))
    ∧ run cdnjs' minify iter languages (Some sl)
      = Ok (Py.join Py.LF
              (comment_lines iter languages sl
                 (missing_languages languages (possible_languages hf))
                 (missing_styles sl (possible_styles hf'))
               ++ location_gen languages
                    (missing_languages languages (possible_languages hf))
               ++ handler_lines (minify html)))
    ∧ comment_lines iter languages sl
        (missing_languages languages (possible_languages hf))
        (missing_styles sl (possible_styles hf)) !! 3%nat
      = Some ("# Requested styles: " +:+ Py.join ", " sl)
    ∧ (∀ i : nat, i ≠ 5%nat →
         comment_lines iter languages sl
           (missing_languages languages (possible_languages hf))
           (missing_styles sl (possible_styles hf)) !! i
         = comment_lines iter languages sl
             (missing_languages languages (possible_languages hf))
             (missing_styles sl (possible_styles hf')) !! i).
Proof.
  intros Hc Hc' Hpl Hrun.
  destruct (run_Ok_inv _ _ _ _ _ _ _ _ _ _ Hc Hrun) as (sl' & Hsl & Hq & Hlen & ->).
  injection Hsl as <-.
  exists (document sl jv hv lv),
    (html_head +:+ MINIFIED_CSS +:+ html_body +:+ scripts_html jv hv lv
       +:+ html_js_src +:+ hv +:+ html_script),
    (MINIFIED_JS +:+ html_tail).
  split_and!.
  - apply assemble_Ok.
  - unfold document. by rewrite !app_assoc_str.
  - reflexivity.
  - reflexivity.
  - rewrite (run_answers _ _ _ _ _ _ _ _ _ Hc'). cbn [effective_styles mbind result_bind].
    rewrite Hq, Z.gtb_ltb, (proj2 (Z.ltb_ge _ _) Hlen).
    unfold snippet, snippet_lines. by rewrite Hpl.
  - reflexivity.
  - intros i Hi. unfold comment_lines.
    do 5 (destruct i as [|i]; [reflexivity|]). destruct i as [|i]; [done|reflexivity].
Qed.

Lemma supplied_styles_pass_through_witness :
  catalog_answers demo_cdnjs "3.4.1" "9.15.10" "2.7.0" demo_files
  ∧ catalog_answers plain_cdnjs "3.4.1" "9.15.10" "2.7.0" plain_files
  ∧ possible_languages plain_files = possible_languages demo_files
  ∧ demo_run (Some ["idea"; "zenburn"]) = Ok (output_of (demo_run (Some ["idea"; "zenburn"])))
  ∧ ∃ html above below,
      assemble ["idea"; "zenburn"] "3.4.1" "9.15.10" "2.7.0" = Ok html
      ∧ html = above +:+ "const STYLES=" +:+ Json.dumps ["idea"; "zenburn"] +:+ ";" +:+ below.
Proof.
  assert (Ha : catalog_answers demo_cdnjs "3.4.1" "9.15.10" "2.7.0" demo_files).
  { eexists _, _. split_and!; reflexivity. }
  assert (Ha' : catalog_answers plain_cdnjs "3.4.1" "9.15.10" "2.7.0" plain_files).
  { eexists _, _. split_and!; reflexivity. }
  assert (Hp : possible_languages plain_files = possible_languages demo_files).
  { vm_compute. reflexivity. }
  assert (Hr : demo_run (Some ["idea"; "zenburn"])
               = Ok (output_of (demo_run (Some ["idea"; "zenburn"])))).
  { vm_compute. reflexivity. }
  split_and!; [exact Ha|exact Ha'|exact Hp|exact Hr|].
  destruct (supplied_styles_pass_through demo_cdnjs plain_cdnjs no_minify elements
              demo_languages ["idea"; "zenburn"] "3.4.1" "9.15.10" "2.7.0"
              demo_files plain_files (output_of (demo_run (Some ["idea"; "zenburn"])))
              Ha Ha' Hp Hr)
    as (html & above & below & H1 & H2 & _).
  exists html, above, below. exact (conj H1 H2).
Defined.

(** * Further properties of the generator *)

(** ** Single characters in strings *)

Lemma contains_char (c : ascii) (s : string) :
  Py.contains (String c "") s = has_char c s.
Proof.
  induction s as [|a s IH]; [done|].
  cbn [Py.contains has_char String.prefix]. rewrite IH.
  destruct (ascii_dec c a) as [->|Hne].
  - rewrite Ascii.eqb_refl. by destruct s.
  - destruct (Ascii.eqb_spec a c) as [->|_]; [done|]. reflexivity.
Qed.

Lemma has_char_app (c : ascii) (a b : string) :
  has_char c (a +:+ b) = has_char c a || has_char c b.
Proof.
  induction a as [|x a IH]; [done|].
  unfold String.app in *. cbn [String.append has_char]. rewrite IH.
  by rewrite orb_assoc.
Qed.

Lemma has_char_join (c : ascii) (sep : string) (l : list string) :
  has_char c sep = false →
  has_char c (Py.join sep l) = existsb (has_char c) l.
Proof.
  intros Hsep. induction l as [|x l IH]; [done|].
  cbn [Py.join existsb]. destruct l as [|y l].
  - cbn [existsb]. by rewrite orb_false_r.
  - by rewrite !has_char_app, Hsep, IH.
Qed.

(** [json.dumps] leaves a single quote as it is, and makes none. *)
Lemma has_quote_escape_char (a : ascii) :
  has_char "'" (Json.escape_char a) = Ascii.eqb a "'".
Proof. destruct a as [[] [] [] [] [] [] [] []]; vm_compute; reflexivity. Qed.

Lemma has_quote_escape (s : string) :
  has_char "'" (Json.escape s) = has_char "'" s.
Proof.
  induction s as [|a s IH]; [done|].
  cbn [Json.escape has_char]. by rewrite has_char_app, has_quote_escape_char, IH.
Qed.

Lemma has_quote_dumps_str (s : string) :
  has_char "'" (Json.dumps_str s) = has_char "'" s.
Proof.
  unfold Json.dumps_str. cbn [has_char]. rewrite has_char_app, has_quote_escape.
  change (has_char "'" (String Py.DQ "")) with false.
  change (Ascii.eqb Py.DQ "'") with false.
  cbn [orb]. by rewrite orb_false_r.
Qed.

Lemma has_quote_dumps (l : list string) :
  has_char "'" (Json.dumps l) = existsb (has_char "'") l.
Proof.
  unfold Json.dumps. rewrite !has_char_app, has_char_join by reflexivity.
  change (has_char "'" "[") with false. change (has_char "'" "]") with false.
  cbn [orb]. rewrite orb_false_r.
  induction l as [|s l IH]; [done|].
  rewrite fmap_cons. cbn [existsb]. by rewrite has_quote_dumps_str, IH.
Qed.

Lemma has_quote_script_tag (lib version file : string) :
  has_char "'" (create_script_tag lib version file)
  = has_char "'" lib || has_char "'" version || has_char "'" file.
Proof.
  unfold create_script_tag. rewrite !has_char_app.
  change (has_char "'" (Py.lit "<script src=`")) with false.
  change (has_char "'" (Py.lit "`></script>")) with false.
  change (has_char "'" "https://cdnjs.cloudflare.com/ajax/libs/") with false.
  change (has_char "'" "/") with false.
  cbn [orb]. by rewrite orb_false_r, !orb_assoc.
Qed.

Lemma has_quote_document (styles : list string) (jv hv lv : string) :
  has_char "'" (document styles jv hv lv)
  = has_char "'" jv || has_char "'" hv || has_char "'" lv
    || existsb (has_char "'") styles.
Proof.
  assert (H1 : has_char "'" html_head = false) by (vm_compute; reflexivity).
  assert (H2 : has_char "'" MINIFIED_CSS = false) by (vm_compute; reflexivity).
  assert (H3 : has_char "'" html_body = false) by (vm_compute; reflexivity).
  assert (H4 : has_char "'" html_js_src = false) by (vm_compute; reflexivity).
  assert (H5 : has_char "'" html_script = false) by (vm_compute; reflexivity).
  assert (H6 : has_char "'" MINIFIED_JS = false) by (vm_compute; reflexivity).
  assert (H7 : has_char "'" html_tail = false) by (vm_compute; reflexivity).
  assert (H8 : has_char "'" (scripts_html jv hv lv)
               = has_char "'" jv || has_char "'" hv || has_char "'" lv).
  { unfold scripts_html. rewrite has_char_join by reflexivity.
    unfold scripts. cbn [fmap list_fmap existsb]. rewrite !has_quote_script_tag.
    change (has_char "'" "jquery") with false.
    change (has_char "'" "jquery.min.js") with false.
    change (has_char "'" "highlight.js") with false.
    change (has_char "'" "highlight.min.js") with false.
    change (has_char "'" "highlightjs-line-numbers.js") with false.
    change (has_char "'" "highlightjs-line-numbers.min.js") with false.
    cbn [orb]. by rewrite !orb_false_r, orb_assoc. }
  unfold document. rewrite !has_char_app, H1, H2, H3, H4, H5, H6, H7, H8, has_quote_dumps.
  change (has_char "'" "const STYLES=") with false.
  change (has_char "'" ";") with false.
  cbn [orb]. rewrite !orb_false_r.
  destruct (has_char "'" jv), (has_char "'" hv), (has_char "'" lv); reflexivity.
Qed.

(** ** The catalog *)

(** X2: [run] reads the catalog through [data['assets'][0]] alone: the
    versions of the first assets of the three libraries and the files of the
    first asset of the highlighting engine.  Later assets, and the files of
    jquery and of the line-numbering plugin, change nothing. *)
Theorem run_reads_first_assets cdnjs cdnjs' minify iter languages styles :
  asset_version <$> first_asset cdnjs "jquery"
    = asset_version <$> first_asset cdnjs' "jquery" →
  first_asset cdnjs "highlight.js" = first_asset cdnjs' "highlight.js" →
  asset_version <$> first_asset cdnjs "highlightjs-line-numbers.js"
    = asset_version <$> first_asset cdnjs' "highlightjs-line-numbers.js" →
  run cdnjs minify iter languages styles = run cdnjs' minify iter languages styles.
Proof.
  unfold first_asset, run, get_cdn_files. intros Hj Hh Hl.
  destruct (cdnjs "jquery") as [|ja jl], (cdnjs' "jquery") as [|ja' jl'];
    cbn [head fmap option_fmap option_map] in Hj;
    try discriminate Hj; [reflexivity|].
  injection Hj as Hj. cbn [mbind result_bind]. rewrite Hj.
  destruct (cdnjs "highlight.js") as [|ha hl], (cdnjs' "highlight.js") as [|ha' hl'];
    cbn [head] in Hh; try discriminate Hh; [reflexivity|].
  injection Hh as <-. cbn [mbind result_bind].
  destruct (cdnjs "highlightjs-line-numbers.js") as [|la ll],
    (cdnjs' "highlightjs-line-numbers.js") as [|la' ll'];
    cbn [head fmap option_fmap option_map] in Hl;
    try discriminate Hl; [reflexivity|].
  injection Hl as Hl. cbn [mbind result_bind]. rewrite Hl. reflexivity.
Qed.

Lemma run_reads_first_assets_witness :
  run demo_cdnjs no_minify elements demo_languages None
  = run longer_cdnjs no_minify elements demo_languages None.
Proof.
  apply (run_reads_first_assets demo_cdnjs longer_cdnjs no_minify elements
           demo_languages None).
  - vm_compute. reflexivity.
  - vm_compute. reflexivity.
  - vm_compute. reflexivity.
Defined.

(** ** The document and the checks on it *)

Lemma len_app (a b : string) : Py.len (a +:+ b) = Py.len a + Py.len b.
Proof. unfold Py.len. rewrite length_app_str. lia. Qed.

(** Replaces the length of a closed string by its value. *)
Ltac len_of s :=
  let n := eval vm_compute in (Py.len s) in
  replace (Py.len s) with n by (vm_compute; reflexivity).

Lemma len_script_tag (lib version file : string) :
  Py.len (create_script_tag lib version file)
  = 65 + Py.len lib + Py.len version + Py.len file.
Proof.
  unfold create_script_tag. rewrite !len_app.
  len_of (Py.lit "<script src=`"). len_of (Py.lit "`></script>").
  len_of "https://cdnjs.cloudflare.com/ajax/libs/". len_of "/".
  unfold Py.len. lia.
Qed.

Lemma len_document (styles : list string) (jv hv lv : string) :
  Py.len (document styles jv hv lv)
  = 2677 + Py.len jv + 2 * Py.len hv + Py.len lv + Py.len (Json.dumps styles).
Proof.
  unfold document, scripts_html, scripts. cbn [fmap list_fmap Py.join].
  rewrite !len_app, !len_script_tag.
  len_of html_head. len_of MINIFIED_CSS. len_of html_body. len_of html_js_src.
  len_of html_script. len_of MINIFIED_JS. len_of html_tail.
  len_of Py.LF. len_of "    ". len_of "const STYLES=". len_of ";".
  len_of "jquery". len_of "jquery.min.js". len_of "highlight.js".
  len_of "highlight.min.js". len_of "highlightjs-line-numbers.js".
  len_of "highlightjs-line-numbers.min.js". unfold Py.len. lia.
Qed.

(** X4: the substitution into [MAGIC_HTML] never raises, whatever the
    versions and styles hold (a [$] in a value is not a placeholder), and
    the assembled document is 2677 characters of template, stylesheet and
    script plus the three versions, the engine's one twice, and the JSON
    array of the styles. *)
Theorem assemble_never_raises (styles : list string) (jv hv lv : string) :
  ∃ html,
    assemble styles jv hv lv = Ok html
    ∧ Py.len html
      = 2677 + Py.len jv + 2 * Py.len hv + Py.len lv + Py.len (Json.dumps styles).
Proof.
  exists (document styles jv hv lv). split; [apply assemble_Ok|apply len_document].
Qed.

(** X5: with the style list settled, [run] raises the unsafe-literal error
    exactly when one of the three versions or one of the styles holds a
    single quote: nothing else in the document can, and [json.dumps] does
    not escape it. *)
Theorem unsafe_literal_iff cdnjs minify iter languages styles jv hv lv hf sl :
  catalog_answers cdnjs jv hv lv hf →
  effective_styles iter styles (possible_styles hf) = Ok sl →
  run cdnjs minify iter languages styles = Raise UnsafeLiteralError
  ↔ has_char "'" jv || has_char "'" hv || has_char "'" lv
      || existsb (has_char "'") sl = true.
Proof.
  intros Hc Hsl. rewrite (run_answers _ _ _ _ _ _ _ _ _ Hc), Hsl.
  cbn [mbind result_bind]. rewrite (contains_char "'"), has_quote_document.
  destruct (has_char "'" jv || has_char "'" hv || has_char "'" lv
            || existsb (has_char "'") sl).
  - split; reflexivity.
  - destruct (_ >? _); split; discriminate.
Qed.

Lemma unsafe_literal_iff_witness :
  catalog_answers demo_cdnjs "3.4.1" "9.15.10" "2.7.0" demo_files
  ∧ effective_styles elements (Some ["it's"]) (possible_styles demo_files) = Ok ["it's"]
  ∧ (run demo_cdnjs no_minify elements demo_languages (Some ["it's"])
       = Raise UnsafeLiteralError
     ↔ has_char "'" "3.4.1" || has_char "'" "9.15.10" || has_char "'" "2.7.0"
         || existsb (has_char "'") ["it's"] = true).
Proof.
  assert (Ha : catalog_answers demo_cdnjs "3.4.1" "9.15.10" "2.7.0" demo_files).
  { eexists _, _. split_and!; reflexivity. }
  assert (Hs : effective_styles elements (Some ["it's"]) (possible_styles demo_files)
               = Ok ["it's"]).
  { reflexivity. }
  split_and!; [exact Ha|exact Hs|].
  exact (unsafe_literal_iff demo_cdnjs no_minify elements demo_languages (Some ["it's"])
           "3.4.1" "9.15.10" "2.7.0" demo_files ["it's"] Ha Hs).
Defined.

(** X6: once the catalog has answered, [run] returns a snippet exactly when
    the style list settles, neither a version nor a style holds a single
    quote, and the minified document has at most 4096-20 characters; the
    snippet is then the one of these styles and this document. *)
Theorem run_succeeds_iff cdnjs minify iter languages styles jv hv lv hf out :
  catalog_answers cdnjs jv hv lv hf →
  run cdnjs minify iter languages styles = Ok out
  ↔ ∃ sl,
      effective_styles iter styles (possible_styles hf) = Ok sl
      ∧ has_char "'" jv || has_char "'" hv || has_char "'" lv
          || existsb (has_char "'") sl = false
      ∧ Py.len (minify (document sl jv hv lv)) ≤ 4096 - 20
      ∧ out = snippet iter languages sl hf (minify (document sl jv hv lv)).
Proof.
  intros Hc. rewrite (run_answers _ _ _ _ _ _ _ _ _ Hc). split.
  - destruct (effective_styles iter styles (possible_styles hf)) as [sl|e];
      cbn [mbind result_bind]; [|discriminate].
    rewrite (contains_char "'"), has_quote_document.
    destruct (has_char "'" jv || has_char "'" hv || has_char "'" lv
              || existsb (has_char "'") sl) eqn:Hq; [discriminate|].
    rewrite Z.gtb_ltb.
    destruct (Z.ltb_spec (4096 - 20) (Py.len (minify (document sl jv hv lv))));
      [discriminate|].
    intros [= <-]. exists sl. split_and!; [reflexivity|exact Hq|assumption|reflexivity].
  - intros (sl & -> & Hq & Hlen & ->). cbn [mbind result_bind].
    rewrite (contains_char "'"), has_quote_document, Hq, Z.gtb_ltb.
    rewrite (proj2 (Z.ltb_ge _ _) Hlen). reflexivity.
Qed.

Lemma run_succeeds_iff_witness :
  catalog_answers demo_cdnjs "3.4.1" "9.15.10" "2.7.0" demo_files
  ∧ (run demo_cdnjs no_minify elements demo_languages None
       = Ok (output_of (run demo_cdnjs no_minify elements demo_languages None))
     ↔ ∃ sl,
         effective_styles elements None (possible_styles demo_files) = Ok sl
         ∧ has_char "'" "3.4.1" || has_char "'" "9.15.10" || has_char "'" "2.7.0"
             || existsb (has_char "'") sl = false
         ∧ Py.len (no_minify (document sl "3.4.1" "9.15.10" "2.7.0")) ≤ 4096 - 20
         ∧ output_of (run demo_cdnjs no_minify elements demo_languages None)
           = snippet elements demo_languages sl demo_files
               (no_minify (document sl "3.4.1" "9.15.10" "2.7.0"))).
Proof.
  assert (Ha : catalog_answers demo_cdnjs "3.4.1" "9.15.10" "2.7.0" demo_files).
  { eexists _, _. split_and!; reflexivity. }
  split; [exact Ha|].
  exact (run_succeeds_iff demo_cdnjs no_minify elements demo_languages None
           "3.4.1" "9.15.10" "2.7.0" demo_files
           (output_of (run demo_cdnjs no_minify elements demo_languages None)) Ha).
Defined.

(** ** The style list when the caller leaves it out *)

Lemma default_list_covers (ps : gset string) :
  "default" ∈ ps →
  list_to_set ("default" :: Py.sorted (elements (ps ∖ {["default"]}))) = ps.
Proof.
  intros Hd. apply set_eq. intros x.
  rewrite elem_of_list_to_set, elem_of_cons. unfold Py.sorted.
  rewrite merge_sort_Permutation, elem_of_elements, elem_of_difference, elem_of_singleton.
  destruct (decide (x = "default")) as [->|]; naive_solver.
Qed.

Lemma missing_styles_default_list (ps : gset string) :
  "default" ∈ ps →
  missing_styles ("default" :: Py.sorted (elements (ps ∖ {["default"]}))) ps = ∅.
Proof.
  intros Hd. unfold missing_styles. rewrite (default_list_covers ps Hd).
  apply set_eq. intros x. rewrite elem_of_difference. split; [naive_solver|].
  intros []%not_elem_of_empty.
Qed.

(** X7: when the styles are left out and the catalog has a style called
    "default", the list [run] works with is "default" followed by the other
    possible styles in sorted order; it holds every possible style once, so
    no style is missing. *)
Theorem omitted_styles_normal_form iter (ps : gset string) :
  (∀ X, iter X ≡ₚ elements X) →
  "default" ∈ ps →
  ∃ rest,
    effective_styles iter None ps = Ok ("default" :: rest)
    ∧ rest = Py.sorted (elements (ps ∖ {["default"]}))
    ∧ Sorted String.le rest
    ∧ "default" :: rest ≡ₚ elements ps
    ∧ NoDup ("default" :: rest)
    ∧ missing_styles ("default" :: rest) ps = ∅.
Proof.
  intros Hiter Hd. exists (Py.sorted (elements (ps ∖ {["default"]}))).
  assert (Hp : "default" :: Py.sorted (elements (ps ∖ {["default"]})) ≡ₚ elements ps).
  { unfold Py.sorted. rewrite merge_sort_Permutation.
    rewrite <- elements_union_singleton by set_solver.
    assert ({["default"]} ∪ ps ∖ {["default"]} = ps) as ->; [|done].
    apply set_eq. intros x. rewrite elem_of_union, elem_of_difference, elem_of_singleton.
    destruct (decide (x = "default")) as [->|]; naive_solver. }
  split_and!.
  - by apply effective_styles_default.
  - reflexivity.
  - apply Sorted_merge_sort, _.
  - exact Hp.
  - rewrite Hp. apply NoDup_elements.
  - by apply missing_styles_default_list.
Qed.

Lemma omitted_styles_normal_form_witness :
  (∀ X : gset string, elements X ≡ₚ elements X)
  ∧ ("default" ∈ possible_styles demo_files)
  ∧ ∃ rest,
      effective_styles elements None (possible_styles demo_files) = Ok ("default" :: rest)
      ∧ rest = Py.sorted (elements (possible_styles demo_files ∖ {["default"]}))
      ∧ Sorted String.le rest
      ∧ "default" :: rest ≡ₚ elements (possible_styles demo_files)
      ∧ NoDup ("default" :: rest)
      ∧ missing_styles ("default" :: rest) (possible_styles demo_files) = ∅.
Proof.
  assert (Hi : ∀ X : gset string, elements X ≡ₚ elements X).
  { intros X. reflexivity. }
  assert (Hd : "default" ∈ possible_styles demo_files).
  { apply (bool_decide_unpack _). vm_compute. exact I. }
  split_and!; [exact Hi|exact Hd|].
  exact (omitted_styles_normal_form elements (possible_styles demo_files) Hi Hd).
Defined.

(** X8: with the styles left out, the result of [run] does not depend on
    the order in which the interpreter iterates over sets: line 84 sorts,
    and no style is missing on line 135. *)
Theorem omitted_styles_order_independent cdnjs minify iter1 iter2 languages :
  (∀ X, iter1 X ≡ₚ elements X) →
  (∀ X, iter2 X ≡ₚ elements X) →
  run cdnjs minify iter1 languages None = run cdnjs minify iter2 languages None.
Proof.
  intros H1 H2. unfold run.
  destruct (get_cdn_files cdnjs "jquery") as [[jv jf]|e1];
    cbn [mbind result_bind]; [|reflexivity].
  destruct (get_cdn_files cdnjs "highlight.js") as [[hv hf]|e2];
    cbn [mbind result_bind]; [|reflexivity].
  destruct (get_cdn_files cdnjs "highlightjs-line-numbers.js") as [[lv lf]|e3];
    cbn [mbind result_bind]; [|reflexivity].
  destruct (decide ("default" ∈ possible_styles hf)) as [Hd|Hd].
  - rewrite (effective_styles_default iter1 H1 _ Hd), (effective_styles_default iter2 H2 _ Hd).
    cbn [mbind result_bind]. rewrite assemble_Ok. cbn [mbind result_bind].
    destruct (Py.contains "'" _); [reflexivity|].
    destruct (_ >? _); [reflexivity|].
    unfold snippet_lines, comment_lines.
    rewrite (missing_styles_default_list _ Hd).
    rewrite (bool_decide_eq_false_2 (∅ ≠ ∅)) by (intros Hn; by apply Hn).
    reflexivity.
  - rewrite (effective_styles_no_default iter1 H1 _ Hd),
      (effective_styles_no_default iter2 H2 _ Hd). reflexivity.
Qed.

Lemma omitted_styles_order_independent_witness :
  (∀ X : gset string, elements X ≡ₚ elements X)
  ∧ (∀ X : gset string, backwards X ≡ₚ elements X)
  ∧ run demo_cdnjs no_minify elements demo_languages None
    = run demo_cdnjs no_minify backwards demo_languages None.
Proof.
  assert (H1 : ∀ X : gset string, elements X ≡ₚ elements X).
  { intros X. reflexivity. }
  assert (H2 : ∀ X : gset string, backwards X ≡ₚ elements X).
  { intros X. apply reverse_Permutation. }
  split_and!; [exact H1|exact H2|].
  exact (omitted_styles_order_independent demo_cdnjs no_minify elements backwards
           demo_languages H1 H2).
Defined.

Lemma iter_small (iter1 iter2 : gset string → list string) (X : gset string) :
  (∀ X, iter1 X ≡ₚ elements X) →
  (∀ X, iter2 X ≡ₚ elements X) →
  (size X ≤ 1)%nat →
  iter1 X = iter2 X.
Proof.
  intros H1 H2 Hs. specialize (H1 X). specialize (H2 X).
  unfold size, set_size in Hs. cbn [compose] in Hs.
  destruct (elements X) as [|x [|y l]]; cbn [length] in Hs; [| |lia].
  - apply Permutation_nil_r in H1, H2. by rewrite H1, H2.
  - apply Permutation_singleton_r in H1, H2. by rewrite H1, H2.
Qed.

(** X9: with a style list from the caller of which at most one style is
    missing, the result of [run] does not depend on the order of iteration
    over sets either; it takes two missing styles for the order to show. *)
Theorem one_missing_style_order_independent
    cdnjs minify iter1 iter2 languages sl jv hv lv hf :
  (∀ X, iter1 X ≡ₚ elements X) →
  (∀ X, iter2 X ≡ₚ elements X) →
  catalog_answers cdnjs jv hv lv hf →
  (size (missing_styles sl (possible_styles hf)) ≤ 1)%nat →
  run cdnjs minify iter1 languages (Some sl) = run cdnjs minify iter2 languages (Some sl).
Proof.
  intros H1 H2 Hc Hs. rewrite !(run_answers _ _ _ _ _ _ _ _ _ Hc).
  cbn [effective_styles mbind result_bind].
  destruct (Py.contains "'" _); [reflexivity|].
  destruct (_ >? _); [reflexivity|].
  unfold snippet, snippet_lines, comment_lines.
  rewrite (iter_small iter1 iter2 _ H1 H2 Hs). reflexivity.
Qed.

Lemma one_missing_style_order_independent_witness :
  (∀ X : gset string, elements X ≡ₚ elements X)
  ∧ (∀ X : gset string, backwards X ≡ₚ elements X)
  ∧ catalog_answers demo_cdnjs "3.4.1" "9.15.10" "2.7.0" demo_files
  ∧ (size (missing_styles ["idea"; "zenburn"] (possible_styles demo_files)) ≤ 1)%nat
  ∧ run demo_cdnjs no_minify elements demo_languages (Some ["idea"; "zenburn"])
    = run demo_cdnjs no_minify backwards demo_languages (Some ["idea"; "zenburn"]).
Proof.
  assert (H1 : ∀ X : gset string, elements X ≡ₚ elements X).
  { intros X. reflexivity. }
  assert (H2 : ∀ X : gset string, backwards X ≡ₚ elements X).
  { intros X. apply reverse_Permutation. }
  assert (Ha : catalog_answers demo_cdnjs "3.4.1" "9.15.10" "2.7.0" demo_files).
  { eexists _, _. split_and!; reflexivity. }
  assert (Hs : (size (missing_styles ["idea"; "zenburn"] (possible_styles demo_files))
                ≤ 1)%nat).
  { vm_compute. lia. }
  split_and!; [exact H1|exact H2|exact Ha|exact Hs|].
  exact (one_missing_style_order_independent demo_cdnjs no_minify elements backwards
           demo_languages ["idea"; "zenburn"] "3.4.1" "9.15.10" "2.7.0" demo_files
           H1 H2 Ha Hs).
Defined.

(** ** Paths and identifiers *)

(** X10: for every file ["languages/<name>.min.js"] of the catalog,
    [<name>] is a possible language, and for every file
    ["styles/<name>.min.css"], [<name>] is a possible style. *)
Theorem well_formed_paths_are_possible (hf : list string) (name : string) :
  ("languages/" +:+ name +:+ ".min.js" ∈ hf → name ∈ possible_languages hf)
  ∧ ("styles/" +:+ name +:+ ".min.css" ∈ hf → name ∈ possible_styles hf).
Proof. split; [apply possible_languages_stripped|apply possible_styles_stripped]. Qed.

Lemma well_formed_paths_are_possible_witness :
  ("languages/" +:+ "python" +:+ ".min.js" ∈ demo_files)
  ∧ ("python" ∈ possible_languages demo_files).
Proof.
  assert (Hin : "languages/" +:+ "python" +:+ ".min.js" ∈ demo_files).
  { apply (bool_decide_unpack _). vm_compute. exact I. }
  split; [exact Hin|].
  exact (proj1 (well_formed_paths_are_possible demo_files "python") Hin).
Defined.

(** X11: lines 76 and 78 never look at how a path ends: whatever seven
    characters follow the name of a language, and whatever eight follow the
    name of a style, the name is taken as possible. *)
Theorem path_ending_is_not_inspected (hf : list string) (name ending : string) :
  (String.length ending = 7%nat →
   "languages/" +:+ name +:+ ending ∈ hf → name ∈ possible_languages hf)
  ∧ (String.length ending = 8%nat →
     "styles/" +:+ name +:+ ending ∈ hf → name ∈ possible_styles hf).
Proof.
  split; intros Hlen Hin.
  - unfold possible_languages. apply elem_of_list_to_set, list_elem_of_fmap.
    exists ("languages/" +:+ name +:+ ending). split.
    + symmetry. pose proof (slice_strips "languages/" name ending) as H.
      unfold Py.len at 2 in H. rewrite Hlen in H. apply H. by destruct ending.
    + apply list_elem_of_In, filter_In. split; [by apply list_elem_of_In|].
      apply startswith_app.
  - unfold possible_styles. apply elem_of_list_to_set, list_elem_of_fmap.
    exists ("styles/" +:+ name +:+ ending). split.
    + symmetry. pose proof (slice_strips "styles/" name ending) as H.
      unfold Py.len at 2 in H. rewrite Hlen in H. apply H. by destruct ending.
    + apply list_elem_of_In, filter_In. split; [by apply list_elem_of_In|].
      apply startswith_app.
Qed.

Lemma path_ending_is_not_inspected_witness :
  String.length "-pack.js" = 8%nat
  ∧ ("styles/" +:+ "dark" +:+ "-pack.js" ∈ ["styles/dark-pack.js"])
  ∧ ("dark" ∈ possible_styles ["styles/dark-pack.js"]).
Proof.
  assert (Hl : String.length "-pack.js" = 8%nat).
  { reflexivity. }
  assert (Hin : "styles/" +:+ "dark" +:+ "-pack.js" ∈ ["styles/dark-pack.js"]).
  { apply (bool_decide_unpack _). vm_compute. exact I. }
  split_and!; [exact Hl|exact Hin|].
  exact (proj2 (path_ending_is_not_inspected ["styles/dark-pack.js"] "dark" "-pack.js")
           Hl Hin).
Defined.

Lemma substring_zero (n : nat) (s : string) : String.substring n 0 s = "".
Proof.
  revert n. induction s as [|c s IH]; intros [|n]; cbn [String.substring]; auto.
Qed.

Lemma slice_short (start stop : Z) (x : string) :
  0 ≤ start → stop < 0 → Py.len x ≤ start - stop → Py.slice start stop x = "".
Proof.
  intros Hs Ht Hlen. unfold Py.slice, Py.clip. unfold Py.len in *.
  destruct (Z.ltb_spec start 0); [lia|]. destruct (Z.ltb_spec stop 0); [|lia].
  replace (Z.to_nat (_ - _)) with 0%nat by lia. apply substring_zero.
Qed.

(** X12: a path with the prefix and at most seven more characters (eight
    for a style) gives the empty identifier, which then counts as a possible
    language or style. *)
Theorem short_paths_give_the_empty_identifier (hf : list string) (x : string) :
  x ∈ hf →
  (Py.startswith "languages/" x = true → Py.len x ≤ 17 → "" ∈ possible_languages hf)
  ∧ (Py.startswith "styles/" x = true → Py.len x ≤ 15 → "" ∈ possible_styles hf).
Proof.
  intros Hin. split; intros Hp Hlen.
  - unfold possible_languages. apply elem_of_list_to_set, list_elem_of_fmap.
    exists x. split; [symmetry; apply slice_short; lia|].
    apply list_elem_of_In, filter_In. by rewrite <- list_elem_of_In.
  - unfold possible_styles. apply elem_of_list_to_set, list_elem_of_fmap.
    exists x. split; [symmetry; apply slice_short; lia|].
    apply list_elem_of_In, filter_In. by rewrite <- list_elem_of_In.
Qed.

Lemma short_paths_give_the_empty_identifier_witness :
  ("languages/x.js" ∈ ["highlight.min.js"; "languages/x.js"])
  ∧ Py.startswith "languages/" "languages/x.js" = true
  ∧ Py.len "languages/x.js" ≤ 17
  ∧ ("" ∈ possible_languages ["highlight.min.js"; "languages/x.js"]).
Proof.
  assert (Hin : "languages/x.js" ∈ ["highlight.min.js"; "languages/x.js"]).
  { apply (bool_decide_unpack _). vm_compute. exact I. }
  assert (Hp : Py.startswith "languages/" "languages/x.js" = true).
  { reflexivity. }
  assert (Hl : Py.len "languages/x.js" ≤ 17).
  { vm_compute. discriminate. }
  split_and!; [exact Hin|exact Hp|exact Hl|].
  exact (proj1 (short_paths_give_the_empty_identifier
                  ["highlight.min.js"; "languages/x.js"] "languages/x.js" Hin) Hp Hl).
Defined.

(** ** The lines of the snippet *)

Lemma filter_missing_count (l : list (string * string)) (M : gset string) :
  NoDup l.*1 →
  M ⊆ list_to_set l.*1 →
  (length (List.filter (λ kv, bool_decide (kv.1 ∉ M)) l) + size M = length l)%nat.
Proof.
  revert M. induction l as [|[k v] l IH]; intros M Hnd HM.
  - assert (M = ∅) as ->.
    { apply set_eq. intros x. split; [|by intros ?%not_elem_of_empty].
      intros Hx%HM. by apply elem_of_list_to_set, elem_of_nil in Hx. }
    by rewrite size_empty.
  - rewrite fmap_cons in Hnd. apply NoDup_cons in Hnd as [Hk Hnd].
    cbn [List.filter fst]. destruct (decide (k ∈ M)) as [HkM|HkM].
    + rewrite bool_decide_eq_false_2 by (intros Hn; by apply Hn).
      assert (HM' : M ∖ {[k]} ⊆ list_to_set l.*1).
      { intros x [Hx Hne]%elem_of_difference. apply HM in Hx.
        rewrite fmap_cons in Hx. set_solver. }
      specialize (IH _ Hnd HM').
      assert (Hf : List.filter (λ kv, bool_decide (kv.1 ∉ M)) l
                   = List.filter (λ kv, bool_decide (kv.1 ∉ M ∖ {[k]})) l).
      { apply List.filter_ext_in. intros [k' v'] Hin. apply bool_decide_ext.
        cbn [fst]. rewrite elem_of_difference, elem_of_singleton.
        assert (k' ≠ k); [|naive_solver].
        intros ->. apply Hk, list_elem_of_fmap. exists (k, v').
        by rewrite list_elem_of_In. }
      rewrite Hf. cbn [length].
      assert (Hsz : size M = S (size (M ∖ {[k]}))).
      { assert (HMk : M = {[k]} ∪ M ∖ {[k]}).
        { apply set_eq. intros x.
          rewrite elem_of_union, elem_of_singleton, elem_of_difference, elem_of_singleton.
          destruct (decide (x = k)) as [->|]; naive_solver. }
        rewrite HMk at 1. rewrite size_union by set_solver.
        by rewrite size_singleton. }
      lia.
    + rewrite bool_decide_eq_true_2 by done. cbn [length].
      assert (HM' : M ⊆ list_to_set l.*1).
      { intros x Hx. pose proof (HM x Hx) as Hx'. rewrite fmap_cons in Hx'.
        set_solver. }
      specialize (IH _ Hnd HM'). lia.
Qed.

(** X13: the tags of a [dict] are pairwise distinct, and then every
    requested language is accounted for once: the number of routing rules
    plus the number of missing languages is the number of requested
    languages. *)
Theorem rules_and_missing_add_up (languages : list (string * string)) (hf : list string) :
  NoDup languages.*1 →
  (length (location_gen languages (missing_languages languages (possible_languages hf)))
   + size (missing_languages languages (possible_languages hf))
   = length languages)%nat.
Proof.
  intros Hnd. unfold location_gen. rewrite length_fmap.
  apply filter_missing_count; [done|]. unfold missing_languages.
  intros x [Hx _]%elem_of_difference. exact Hx.
Qed.

Lemma rules_and_missing_add_up_witness :
  NoDup demo_languages.*1
  ∧ (length (location_gen demo_languages
               (missing_languages demo_languages (possible_languages demo_files)))
     + size (missing_languages demo_languages (possible_languages demo_files))
     = length demo_languages)%nat.
Proof.
  assert (Hnd : NoDup demo_languages.*1).
  { apply (bool_decide_unpack _). vm_compute. exact I. }
  split; [exact Hnd|].
  exact (rules_and_missing_add_up demo_languages demo_files Hnd).
Defined.

(** X14: the [filter(None, ...)] of line 129 never drops a line: every
    line of the snippet is non-empty, also for an empty pattern, an empty
    tag or an empty document. *)
Theorem filter_keeps_every_line iter languages styles
    (missing_languages missing_styles : gset string) (html : string) :
  Py.filter_None (snippet_lines iter languages styles missing_languages missing_styles html)
  = snippet_lines iter languages styles missing_languages missing_styles html
  ∧ length (snippet_lines iter languages styles missing_languages missing_styles html)
    = (17 + length (location_gen languages missing_languages))%nat.
Proof.
  split; [apply filter_None_id, snippet_lines_truthy|].
  unfold snippet_lines. rewrite !length_app.
  change (length (comment_lines iter languages styles missing_languages missing_styles))
    with 6%nat.
  change (length (handler_lines html)) with 11%nat. lia.
Qed.

(** ** The languages [main] asks for *)

Lemma dict_setitem_keys (k v : string) (d : list (string * string)) :
  (dict_setitem k v d).*1 = if bool_decide (k ∈ d.*1) then d.*1 else d.*1 ++ [k].
Proof.
  induction d as [|[k' v'] d IH]; [done|].
  cbn [dict_setitem]. rewrite !fmap_cons. cbn [fst].
  destruct (String.eqb_spec k' k) as [->|Hne].
  - rewrite bool_decide_eq_true_2 by apply list_elem_of_here. done.
  - rewrite fmap_cons, IH. cbn [fst].
    destruct (decide (k ∈ d.*1)) as [Hin|Hin].
    + rewrite !bool_decide_eq_true_2; [done|by apply list_elem_of_further|done].
    + rewrite !bool_decide_eq_false_2; [done| |done].
      intros [?|?]%elem_of_cons; [by apply Hne|by apply Hin].
Qed.

Lemma dict_update_keys (d kw : list (string * string)) :
  NoDup d.*1 →
  NoDup (dict_update d kw).*1
  ∧ d.*1 `prefix_of` (dict_update d kw).*1
  ∧ (∀ k, k ∈ (dict_update d kw).*1 ↔ k ∈ d.*1 ∨ k ∈ kw.*1).
Proof.
  revert d. induction kw as [|[k v] kw IH]; intros d Hnd.
  - cbn [dict_update foldl]. split_and!; [done|done|].
    intros k. rewrite fmap_nil, elem_of_nil. naive_solver.
  - change (dict_update d ((k, v) :: kw)) with (dict_update (dict_setitem k v d) kw).
    assert (Hnd' : NoDup (dict_setitem k v d).*1).
    { rewrite dict_setitem_keys. case_bool_decide; [done|].
      apply NoDup_app. split_and!; [done| |apply NoDup_singleton].
      intros x Hx ->%list_elem_of_singleton. done. }
    destruct (IH _ Hnd') as (H1 & H2 & H3). split_and!; [done| |].
    + etrans; [|exact H2]. rewrite dict_setitem_keys.
      case_bool_decide; [done|]. by apply prefix_app_r.
    + intros x. rewrite H3, dict_setitem_keys, fmap_cons, elem_of_cons. cbn [fst].
      case_bool_decide as Hk.
      * split; [naive_solver|]. intros [?|[->|?]]; auto.
      * rewrite elem_of_app, list_elem_of_singleton. naive_solver.
Qed.

Lemma dict_get_setitem (k k' v : string) (d : list (string * string)) :
  dict_get k' (dict_setitem k v d) = if String.eqb k k' then Some v else dict_get k' d.
Proof.
  induction d as [|[k0 v0] d IH]; [done|].
  cbn [dict_setitem dict_get].
  destruct (String.eqb_spec k0 k) as [->|Hne]; cbn [dict_get].
  - by destruct (String.eqb_spec k k').
  - rewrite IH. destruct (String.eqb_spec k0 k') as [->|]; [|done].
    by destruct (String.eqb_spec k k') as [->|].
Qed.

Lemma dict_get_app (k : string) (d1 d2 : list (string * string)) :
  dict_get k (d1 ++ d2)
  = match dict_get k d1 with Some v => Some v | None => dict_get k d2 end.
Proof.
  induction d1 as [|[k0 v0] d1 IH]; [done|].
  cbn [app dict_get]. by destruct (String.eqb k0 k).
Qed.

Lemma dict_get_update (k : string) (d kw : list (string * string)) :
  dict_get k (dict_update d kw)
  = match dict_get k (reverse kw) with Some v => Some v | None => dict_get k d end.
Proof.
  revert d. induction kw as [|[k0 v0] kw IH]; intros d; [done|].
  change (dict_update d ((k0, v0) :: kw)) with (dict_update (dict_setitem k0 v0 d) kw).
  rewrite IH, reverse_cons, dict_get_app, dict_get_setitem. cbn [dict_get].
  destruct (dict_get k (reverse kw)); [done|]. by destruct (String.eqb k0 k).
Qed.

Lemma dict_get_absent (k : string) (d : list (string * string)) :
  k ∉ d.*1 → dict_get k d = None.
Proof.
  induction d as [|[k0 v0] d IH]; [done|].
  rewrite fmap_cons, not_elem_of_cons. cbn [fst dict_get]. intros [Hne Hk].
  destruct (String.eqb_spec k0 k) as [->|]; [done|]. by apply IH.
Qed.

Lemma dict_get_extension (ext : string) (exts : list string) :
  ext ∈ exts → dict_get ext (extension_patterns exts) = Some ("\.(" +:+ ext +:+ ")$").
Proof.
  unfold extension_patterns. induction exts as [|e exts IH]; [by intros ?%elem_of_nil|].
  rewrite fmap_cons. cbn [dict_get]. intros Hin.
  destruct (String.eqb_spec e ext) as [->|Hne]; [done|].
  apply elem_of_cons in Hin as [->|Hin]; [done|]. by apply IH.
Qed.

(** X15: the languages of lines 29-50, for any list of pairwise distinct
    extensions and any special cases: the tags come out pairwise distinct,
    the extensions first and in their order, then the new special cases; a
    tag among the special cases has the pattern given last for it there
    (as [sql], which keeps its place among the extensions), and an
    extension without a special case has the pattern [\.(ext)$]. *)
Theorem special_cases_override_in_place (exts : list string) (kw : list (string * string)) :
  NoDup exts →
  NoDup (dict_update (extension_patterns exts) kw).*1
  ∧ exts `prefix_of` (dict_update (extension_patterns exts) kw).*1
  ∧ (∀ k, k ∈ (dict_update (extension_patterns exts) kw).*1 ↔ k ∈ exts ∨ k ∈ kw.*1)
  ∧ (∀ k v, dict_get k (reverse kw) = Some v →
       dict_get k (dict_update (extension_patterns exts) kw) = Some v)
  ∧ (∀ ext, ext ∈ exts → ext ∉ kw.*1 →
       dict_get ext (dict_update (extension_patterns exts) kw)
       = Some ("\.(" +:+ ext +:+ ")$")).
Proof.
  intros Hnd.
  assert (Hk : (extension_patterns exts).*1 = exts).
  { unfold extension_patterns. rewrite <- list_fmap_compose.
    induction exts as [|e exts IH]; [done|].
    rewrite fmap_cons. f_equal. apply IH. by apply NoDup_cons in Hnd as [_ ?]. }
  destruct (dict_update_keys (extension_patterns exts) kw) as (H1 & H2 & H3).
  { by rewrite Hk. }
  rewrite Hk in H2. split_and!; [done|done| | |].
  - intros k. by rewrite H3, Hk.
  - intros k v Hv. by rewrite dict_get_update, Hv.
  - intros ext Hin Hout. rewrite dict_get_update, dict_get_absent.
    + by apply dict_get_extension.
    + rewrite fmap_reverse. by rewrite elem_of_reverse.
Qed.

Lemma special_cases_override_in_place_witness :
  NoDup wanted_extensions
  ∧ dict_get "sql" (reverse special_cases) = Some "\.(sql)$"
  ∧ dict_get "sql" wanted_languages = Some "\.(sql)$"
  ∧ wanted_extensions `prefix_of` wanted_languages.*1.
Proof.
  assert (Hnd : NoDup wanted_extensions).
  { apply (bool_decide_unpack _). vm_compute. exact I. }
  assert (Hv : dict_get "sql" (reverse special_cases) = Some "\.(sql)$").
  { reflexivity. }
  split_and!; [exact Hnd|exact Hv| |].
  - exact (proj1 (proj2 (proj2 (proj2
      (special_cases_override_in_place wanted_extensions special_cases Hnd))))
      "sql" "\.(sql)$" Hv).
  - exact (proj1 (proj2
      (special_cases_override_in_place wanted_extensions special_cases Hnd))).
Defined.

(** ** The frame of the snippet *)

Lemma Ok_inj {A : Type} (a b : A) : Ok a = Ok b → a = b.
Proof. by intros [= ->]. Qed.

Lemma join_two (sep h1 h2 x : string) (l : list string) :
  Py.join sep (h1 :: h2 :: x :: l)
  = h1 +:+ sep +:+ h2 +:+ sep +:+ Py.join sep (x :: l).
Proof. reflexivity. Qed.

Lemma join_last_two (sep x y : string) (l : list string) :
  ∃ a, Py.join sep (l ++ [x; y]) = a +:+ x +:+ sep +:+ y.
Proof.
  induction l as [|z l [a IH]].
  - by exists "".
  - exists (z +:+ sep +:+ a). rewrite !app_assoc_str, <- IH.
    rewrite <- app_comm_cons. cbn [Py.join]. by destruct l.
Qed.

(** X16: whatever [run] returns is framed the same way: it begins with the
    two header lines and ends with the directive [return 200 '...';] that
    holds the minified document of some style list and versions between
    single quotes, and the closing brace.  It is never empty. *)
Theorem snippet_frame cdnjs minify iter languages styles out :
  run cdnjs minify iter languages styles = Ok out →
  out ≠ ""
  ∧ ∃ sl jv hv lv middle,
      assemble sl jv hv lv = Ok (document sl jv hv lv)
      ∧ out = "# NginxSourceViewer" +:+ Py.LF +:+ "# -----------------" +:+ Py.LF
              +:+ middle +:+ "    return 200 '" +:+ minify (document sl jv hv lv) +:+ "';"
              +:+ Py.LF +:+ "}".
Proof.
  unfold run.
  destruct (get_cdn_files cdnjs "jquery") as [[jv jf]|e1];
    cbn [mbind result_bind]; [|discriminate].
  destruct (get_cdn_files cdnjs "highlight.js") as [[hv hf]|e2];
    cbn [mbind result_bind]; [|discriminate].
  destruct (get_cdn_files cdnjs "highlightjs-line-numbers.js") as [[lv lf]|e3];
    cbn [mbind result_bind]; [|discriminate].
  destruct (effective_styles iter styles (possible_styles hf)) as [sl|e4];
    cbn [mbind result_bind]; [|discriminate].
  rewrite assemble_Ok. cbn [mbind result_bind].
  destruct (Py.contains "'" _); [discriminate|].
  destruct (_ >? _); [discriminate|].
  rewrite filter_None_id by apply snippet_lines_truthy.
  intros Hout%Ok_inj. subst out.
  set (ml := missing_languages languages (possible_languages hf)).
  set (ms := missing_styles sl (possible_styles hf)).
  set (html := minify (document sl jv hv lv)).
  assert (Hshape : ∃ c3 M,
            snippet_lines iter languages sl ml ms html
            = "# NginxSourceViewer" :: "# -----------------" :: c3
                :: M ++ ["    return 200 '" +:+ html +:+ "';"; "}"]).
  { unfold snippet_lines, comment_lines, handler_lines.
    eexists _, (_ :: _ :: _ :: location_gen languages ml ++ [_; _; _; _; _; _; _; _; _]).
    cbn [app]. rewrite <- app_assoc. reflexivity. }
  destruct Hshape as (c3 & M & ->). split.
  - rewrite join_two. intros H. by apply (f_equal String.length) in H.
  - destruct (join_last_two Py.LF ("    return 200 '" +:+ html +:+ "';") "}" (c3 :: M))
      as [a Ha].
    exists sl, jv, hv, lv, a. split; [apply assemble_Ok|].
    rewrite join_two, app_comm_cons, Ha. by rewrite !app_assoc_str.
Qed.

Lemma snippet_frame_witness :
  run demo_cdnjs no_minify elements demo_languages None
    = Ok (output_of (run demo_cdnjs no_minify elements demo_languages None))
  ∧ output_of (run demo_cdnjs no_minify elements demo_languages None) ≠ "".
Proof.
  assert (Hr : run demo_cdnjs no_minify elements demo_languages None
               = Ok (output_of (run demo_cdnjs no_minify elements demo_languages None))).
  { vm_compute. reflexivity. }
  split; [exact Hr|].
  exact (proj1 (snippet_frame demo_cdnjs no_minify elements demo_languages None
                  (output_of (run demo_cdnjs no_minify elements demo_languages None)) Hr)).
Defined.
